(** * Wiki relation-history routes and the person edit of inchei/server-private

    A shallow embedding of
    - [lib/rev/index.ts]  ([createRelationHistoryRoute]),
    - [routes/private/routes/wiki/character/index.ts] (revision details),
    - [routes/private/routes/wiki/person/index.ts] (wiki info, edit,
      revision details),
    over an explicit database state.  Handlers are computations in a small
    state-and-error monad; every database query and collaborator call is
    recorded in a log, so that "does no lookup" is a statement about the
    log. *)

From Stdlib Require Import QArith Qround.
From stdpp Require Import gmap strings list sorting pretty.

Local Open Scope string_scope.
Local Open Scope Z_scope.

(** ** JavaScript values reaching a handler *)

(** Route parameters after the framework's coercion.  A number is modelled
    by a rational; NaN and the infinities cannot come out of a URL. *)
Inductive jsval : Type :=
| JUndefined
| JBoolean (b : bool)
| JString (s : string)
| JNumber (q : Q).

Definition typeof (v : jsval) : string :=
  match v with
  | JUndefined => "undefined"
  | JBoolean _ => "boolean"
  | JString _ => "string"
  | JNumber _ => "number"
  end.

(** [Number.isInteger] *)
Definition isInteger (q : Q) : bool := Qeq_bool q (inject_Z (Qfloor q)).

(** typebox's [t.Integer({ minimum, maximum })] as a check on a value. *)
Definition t_Integer (minimum maximum : option Z) (v : jsval) : bool :=
  match v with
  | JNumber q =>
      isInteger q
      && from_option (λ lo, Qle_bool (inject_Z lo) q) true minimum
      && from_option (λ hi, Qle_bool q (inject_Z hi)) true maximum
  | _ => false
  end.

(** ** Numbers in messages *)

(** [Number.MAX_SAFE_INTEGER], and [Number.isSafeInteger] on an integer. *)
Definition MAX_SAFE_INTEGER : Z := 9007199254740991.

Definition isSafeInteger (z : Z) : bool :=
  bool_decide (- MAX_SAFE_INTEGER ≤ z ≤ MAX_SAFE_INTEGER).

(** The text of a number in a template literal.  A safe integer is
    written in decimal.  Beyond the safe range the text is that of a
    double, with rounded digits and, from 10^21 on, an exponent
    ("1e+21"): it is left to [toStringBeyond]. *)
Definition Number_toString (toStringBeyond : Z → string) (z : Z) : string :=
  if isSafeInteger z then pretty z else toStringBeyond z.

(** ** Errors *)

(** The exceptions the handlers throw, under their source names.
    [ValidationError] is the framework's rejection of a request that does
    not match the route's schema; [DeserializeError] stands for whatever
    [RevText.deserialize] throws on a corrupt blob; [StorageError] is a
    failed write. *)
Inductive Error : Type :=
| NotFoundError (msg : string)
| NotAllowedError (msg : string)
| LockedError
| WikiChangedError (diff : string)
| TypeError (msg : string)
| ValidationError (path : string)
| DeserializeError
| StorageError.

(** The error taxonomy of the specification. *)
Inductive ErrorKind : Type :=
| NotFound | InvalidArgument | Locked | NotAllowed | ConcurrentModification
| Internal.

Definition kindOf (e : Error) : ErrorKind :=
  match e with
  | NotFoundError _ => NotFound
  | NotAllowedError _ => NotAllowed
  | LockedError => Locked
  | WikiChangedError _ => ConcurrentModification
  | TypeError _ => InvalidArgument
  | ValidationError _ => InvalidArgument
  | DeserializeError => Internal
  | StorageError => Internal
  end.

#[global] Instance ErrorKind_eq_dec : EqDecision ErrorKind.
Proof. solve_decision. Defined.

(** ** Tables *)

(** [RevType] of [lib/orm/entity]: only the tags matter, not their
    numbers. *)
Inductive RevType : Type :=
| subjectRelation
| subjectCharacterRelation
| subjectCastRelation
| subjectPersonRelation
| characterSubjectRelation
| characterCastRelation
| personCastRelation
| personSubjectRelation
| personEdit.

#[global] Instance RevType_eq_dec : EqDecision RevType.
Proof. solve_decision. Defined.

(** A row of [schema.chiiRevHistory]. *)
Record RevHistory : Type := {
  revId : Z;
  revType : RevType;
  revMid : Z;
  revTextId : Z;
  createdAt : Z;
  revCreator : Z;
  revEditSummary : string;
}.

(** A row of [schema.chiiRevText]; the blob is kept as an opaque string. *)
Module chiiRevText.
Record row : Type := { revTextId : Z; revText : string }.
End chiiRevText.

(** [entity.Person]; the row's [id] is its key in the table. *)
Module entity.
Record Person : Type := {
  name : string;
  infobox : string;
  summary : string;
  lock : Z;
  redirect : Z;
  type : Z;
  img : string;
}.
End entity.

(** What the bulk fetchers return per id. *)
Record SlimUser : Type := { username : string }.
Record Slim : Type := { name : string }.

Record Database : Type := {
  chiiRevHistory : list RevHistory;
  chiiRevTextRows : list chiiRevText.row;
  persons : gmap Z entity.Person;
  users : gmap Z SlimUser;
  subjects : gmap Z Slim;
  characters : gmap Z Slim;
}.

(** ** The handler monad *)

Inductive Event : Type :=
| DbSelect (table : string)
| DbWrite (table : string)
| Call (fn : string).

(** [saveFails] is fault injection: whether the storage rejects an entity
    write. *)
Record World : Type := {
  db : Database;
  log : list Event;
  saveFails : bool;
}.

Inductive Result (A : Type) : Type :=
| Ok (a : A)
| Err (e : Error).
Arguments Ok {A} a.
Arguments Err {A} e.

Definition M (A : Type) : Type := World → Result A * World.

#[global] Instance M_ret : MRet M := λ A a w, (Ok a, w).
#[global] Instance M_bind : MBind M := λ A B f m w,
  match m w with
  | (Ok a, w') => f a w'
  | (Err e, w') => (Err e, w')
  end.

Definition throw {A} (e : Error) : M A := λ w, (Err e, w).

Definition emit (ev : Event) : M unit := λ w,
  (Ok (), {| db := db w; log := log w ++ [ev]; saveFails := saveFails w |}).

Definition getDb : M Database := λ w, (Ok (db w), w).

Definition putDb (d : Database) : M unit := λ w,
  (Ok (), {| db := d; log := log w; saveFails := saveFails w |}).

(** ** Queries on [chiiRevHistory] *)

(** [op.and(op.eq(revMid, targetId), op.inArray(revType, revTypes))] *)
Definition matching (targetId : Q) (revTypes : list RevType) (r : RevHistory) : bool :=
  Qeq_bool (inject_Z (revMid r)) targetId && bool_decide (revType r ∈ revTypes).

(** [orderBy(op.desc(revId))] *)
Definition desc_revId (a b : RevHistory) : Prop := revId b ≤ revId a.

#[global] Instance desc_revId_dec : RelDecision desc_revId.
Proof. intros a b. unfold desc_revId. apply _. Defined.

(** [op.countDistinct(revId)] over the matching rows.  The aggregate
    always yields one row, so the default [count = 0] of the handler's
    destructuring is never used. *)
Definition countDistinct (d : Database) (targetId : Q) (revTypes : list RevType) : Z :=
  Z.of_nat (length (remove_dups
    (revId <$> List.filter (matching targetId revTypes) (chiiRevHistory d)))).

Definition selectCount (targetId : Q) (revTypes : list RevType) : M Z :=
  _ ← emit (DbSelect "chiiRevHistory");
  d ← getDb;
  mret (countDistinct d targetId revTypes).

(** The rows of one page: filter, order by [revId] descending, skip
    [offset], take [limit]. *)
Definition historyRows (d : Database) (targetId : Q) (revTypes : list RevType)
    (offset limit : Z) : list RevHistory :=
  take (Z.to_nat limit) (drop (Z.to_nat offset)
    (merge_sort desc_revId
       (List.filter (matching targetId revTypes) (chiiRevHistory d)))).

Definition selectPage (targetId : Q) (revTypes : list RevType) (offset limit : Z) :
    M (list RevHistory) :=
  _ ← emit (DbSelect "chiiRevHistory");
  d ← getDb;
  mret (historyRows d targetId revTypes offset limit).

(** ** Bulk fetchers *)

(** The entries of a store whose id was asked for. *)
Definition byIDs {V} (store : gmap Z V) (ids : list Z) : gmap Z V :=
  filter (λ kv, kv.1 ∈ ids) store.

(** Modelled from the spec: [fetcher.fetchSlimUsersByIDs] and its three
    siblings live in [lib/types/fetcher.ts], which is not among the
    sources.  "Given a set of ids, return a mapping id to name for users,
    subjects, persons, characters; missing ids simply absent from the
    result mapping (never an error)". *)
Definition fetchSlimUsersByIDs (ids : list Z) : M (gmap Z SlimUser) :=
  _ ← emit (Call "fetchSlimUsersByIDs");
  d ← getDb;
  mret (byIDs (users d) ids).

(** Modelled from the spec: see [fetchSlimUsersByIDs]. *)
Definition fetchSlimSubjectsByIDs (ids : list Z) : M (gmap Z Slim) :=
  _ ← emit (Call "fetchSlimSubjectsByIDs");
  d ← getDb;
  mret (byIDs (subjects d) ids).

(** Modelled from the spec: see [fetchSlimUsersByIDs]. *)
Definition fetchSlimPersonsByIDs (ids : list Z) : M (gmap Z Slim) :=
  _ ← emit (Call "fetchSlimPersonsByIDs");
  d ← getDb;
  mret (byIDs ((λ p, {| name := entity.name p |}) <$> persons d) ids).

(** Modelled from the spec: see [fetchSlimUsersByIDs]. *)
Definition fetchSlimCharactersByIDs (ids : list Z) : M (gmap Z Slim) :=
  _ ← emit (Call "fetchSlimCharactersByIDs");
  d ← getDb;
  mret (byIDs (characters d) ids).

(** ** Responses and requests *)

Module res.
Record RelationHistory : Type := {
  id : Z;
  creator : SlimUser;
  createdAt : Z;
  commitMessage : string;
}.
Record Paged (T : Type) : Type := { total : Z; data : list T }.
Arguments total {T} _.
Arguments data {T} _.
End res.

Record Query : Type := { limit : option Z; offset : option Z }.

(** A route: the two request schemas as checks, and the handler. *)
Record Route (T : Type) : Type := {
  schema_params : gmap string jsval → bool;
  schema_querystring : Query → bool;
  handler : gmap string jsval → Query → M T;
}.
Arguments schema_params {T} _ _.
Arguments schema_querystring {T} _ _.
Arguments handler {T} _ _ _.

(** The framework validates a request against the route's schema and only
    then calls the handler. *)
Definition serve {T} (r : Route T) (params : gmap string jsval) (query : Query) : M T :=
  if negb (schema_params r params) then throw (ValidationError "params")
  else if negb (schema_querystring r query) then throw (ValidationError "querystring")
  else handler r params query.

Section History.

(** [ghostUser] of [lib/user/utils.ts], which is not among the sources:
    some function of the editor id. *)
Variable ghostUser : Z → SlimUser.

(** One entry of the response, from a row and the fetched users. *)
Definition toSummary (users : gmap Z SlimUser) (x : RevHistory) : res.RelationHistory :=
  {| res.id := revId x;
     res.creator :=
       {| username :=
            match users !! revCreator x with
            | Some u => username u
            | None => username (ghostUser (revCreator x))
            end |};
     res.createdAt := createdAt x;
     res.commitMessage := revEditSummary x |}.

Definition createRelationHistoryRoute (operationId summary idName : string)
    (revTypes : list RevType) : Route (res.Paged res.RelationHistory) :=
  {| schema_params := λ params,
       from_option (t_Integer (Some 1) None) false (params !! idName);
     schema_querystring := λ query,
       from_option (λ l, bool_decide (1 ≤ l ≤ 100)) true (limit query)
       && from_option (λ o, bool_decide (0 ≤ o)) true (offset query);
     handler := λ params query,
       let limit := default 20 (limit query) in
       let offset := default 0 (offset query) in
       match params !! idName with
       | Some (JNumber targetId) =>
           count ← selectCount targetId revTypes;
           history ← selectPage targetId revTypes offset limit;
           users ← fetchSlimUsersByIDs (revCreator <$> history);
           let revisions := toSummary users <$> history in
           mret {| res.total := count; res.data := revisions |}
       | _ => throw (TypeError (idName +:+ " should be a number"))
       end |}.


(** The four history routes registered by the two [setup] functions. *)
Definition characterSubjectHistorySummary :=
  createRelationHistoryRoute "CharacterSubjectHistorySummary"
    "获取角色-条目关联历史编辑摘要" "characterID" [characterSubjectRelation].

Definition characterPersonHistorySummary :=
  createRelationHistoryRoute "personCastHistorySummary"
    "获取角色-人物关联历史编辑摘要" "characterID" [characterCastRelation].

Definition personSubjectHistorySummary :=
  createRelationHistoryRoute "personSubjectHistorySummary"
    "获取人物-条目关联历史编辑摘要" "personID" [personSubjectRelation].

Definition personCharacterHistorySummary :=
  createRelationHistoryRoute "personCharacterHistorySummary"
    "获取人物-角色关联历史编辑摘要" "personID" [personCastRelation].

End History.

(** ** Revision details *)

(** One entry of a deserialized relation revision.  The four relation
    kinds ([CharacterSubjectRev], [CharacterPersonRev], [PersonSubjectRev],
    [PersonCharacterRev]) read different fields of it; the handlers' unary
    plus is the identity on the integers kept here. *)
Record RevItem : Type := {
  subject_id : Z;
  crt_type : Z;
  prsn_id : Z;
  position : Z;
  crt_id : Z;
}.

(** A revision's content (an object of entries), and a blob's content (a
    mapping from revision id to content). *)
Abbreviation RevContent := (list (string * RevItem)).
Abbreviation RevRecord := (gmap Z RevContent).

(** [Object.values] *)
Definition Object_values {V} (o : list (string * V)) : list V := o.*2.

(** [x || ''] on an optional string: the empty string when [x] is falsy. *)
Definition orEmpty (x : option string) : string :=
  match x with
  | Some s => if decide (s = "") then "" else s
  | None => ""
  end.

Module CharacterSubjectRelationWiki.
Record item : Type := { subjectName : string; subjectId : Z; characterType : Z }.
End CharacterSubjectRelationWiki.

Module CharacterPersonRelationWiki.
Record item : Type :=
  { subjectName : string; subjectId : Z; personName : string; personId : Z }.
End CharacterPersonRelationWiki.

Module PersonSubjectRelationWiki.
Record item : Type := { subjectName : string; subjectId : Z; position : Z }.
End PersonSubjectRelationWiki.

Module PersonCharacterRelationWiki.
Record item : Type :=
  { subjectName : string; subjectId : Z; characterName : string; characterId : Z }.
End PersonCharacterRelationWiki.

(** [select().from(chiiRevHistory).where(eq(revId, revisionID)).limit(1)] *)
Definition selectRevision (revisionID : Z) : M (list RevHistory) :=
  _ ← emit (DbSelect "chiiRevHistory");
  d ← getDb;
  mret (take 1 (filter (λ r, revId r = revisionID) (chiiRevHistory d))).

(** [select().from(chiiRevText).where(eq(revTextId, id))] *)
Definition selectRevText (id : Z) : M (list chiiRevText.row) :=
  _ ← emit (DbSelect "chiiRevText");
  d ← getDb;
  mret (filter (λ t, chiiRevText.revTextId t = id) (chiiRevTextRows d)).

Section Details.

(** The text of the numbers beyond the safe range, see [Number_toString]. *)
Variable toStringBeyond : Z → string.

(** [RevText.deserialize] of [lib/orm/entity], which is not among the
    sources: some partial function of the blob. *)
Variable deserialize : string → option RevRecord.

Definition RevText_deserialize (blob : string) : M RevRecord :=
  _ ← emit (Call "RevText.deserialize");
  match deserialize blob with
  | Some revRecord => mret revRecord
  | None => throw DeserializeError
  end.

(** [revRecord[revisionID]] followed by [Object.values], which throws on
    [undefined]. *)
Definition valuesOf (revRecord : RevRecord) (revisionID : Z) : M (list RevItem) :=
  match revRecord !! revisionID with
  | Some revContent => mret (Object_values revContent)
  | None => throw (TypeError "Cannot convert undefined or null to object")
  end.

Definition getCharacterSubjectRevision (revisionID : Z) :
    M (list CharacterSubjectRelationWiki.item) :=
  rs ← selectRevision revisionID;
  match rs with
  | [] => throw (NotFoundError ("revision " +:+ Number_toString toStringBeyond revisionID))
  | r :: _ =>
      ts ← selectRevText (revTextId r);
      match ts with
      | [] => throw (NotFoundError ("RevText " +:+ pretty (revTextId r)))
      | revText :: _ =>
          revRecord ← RevText_deserialize (chiiRevText.revText revText);
          values ← valuesOf revRecord revisionID;
          subjects ← fetchSlimSubjectsByIDs (subject_id <$> values);
          mret ((λ x,
                   {| CharacterSubjectRelationWiki.subjectId := subject_id x;
                      CharacterSubjectRelationWiki.subjectName :=
                        orEmpty (name <$> subjects !! subject_id x);
                      CharacterSubjectRelationWiki.characterType := crt_type x |})
                <$> values)
      end
  end.

Definition getCharacterPersonRevision (revisionID : Z) :
    M (list CharacterPersonRelationWiki.item) :=
  rs ← selectRevision revisionID;
  match rs with
  | [] => throw (NotFoundError ("revision " +:+ Number_toString toStringBeyond revisionID))
  | r :: _ =>
      ts ← selectRevText (revTextId r);
      match ts with
      | [] => throw (NotFoundError ("RevText " +:+ pretty (revTextId r)))
      | revText :: _ =>
          revRecord ← RevText_deserialize (chiiRevText.revText revText);
          values ← valuesOf revRecord revisionID;
          subjects ← fetchSlimSubjectsByIDs (subject_id <$> values);
          persons ← fetchSlimPersonsByIDs (prsn_id <$> values);
          mret ((λ x,
                   {| CharacterPersonRelationWiki.subjectId := subject_id x;
                      CharacterPersonRelationWiki.subjectName :=
                        orEmpty (name <$> subjects !! subject_id x);
                      CharacterPersonRelationWiki.personId := prsn_id x;
                      CharacterPersonRelationWiki.personName :=
                        orEmpty (name <$> persons !! prsn_id x) |})
                <$> values)
      end
  end.

Definition getPersonSubjectRevision (revisionID : Z) :
    M (list PersonSubjectRelationWiki.item) :=
  rs ← selectRevision revisionID;
  match rs with
  | [] => throw (NotFoundError ("revision " +:+ Number_toString toStringBeyond revisionID))
  | r :: _ =>
      ts ← selectRevText (revTextId r);
      match ts with
      | [] => throw (NotFoundError ("RevText " +:+ pretty (revTextId r)))
      | revText :: _ =>
          revRecord ← RevText_deserialize (chiiRevText.revText revText);
          values ← valuesOf revRecord revisionID;
          subjects ← fetchSlimSubjectsByIDs (subject_id <$> values);
          mret ((λ x,
                   {| PersonSubjectRelationWiki.subjectId := subject_id x;
                      PersonSubjectRelationWiki.subjectName :=
                        orEmpty (name <$> subjects !! subject_id x);
                      PersonSubjectRelationWiki.position := position x |})
                <$> values)
      end
  end.

Definition getPersonCharacterRevision (revisionID : Z) :
    M (list PersonCharacterRelationWiki.item) :=
  rs ← selectRevision revisionID;
  match rs with
  | [] => throw (NotFoundError ("revision " +:+ Number_toString toStringBeyond revisionID))
  | r :: _ =>
      ts ← selectRevText (revTextId r);
      match ts with
      | [] => throw (NotFoundError ("RevText " +:+ pretty (revTextId r)))
      | revText :: _ =>
          revRecord ← RevText_deserialize (chiiRevText.revText revText);
          values ← valuesOf revRecord revisionID;
          subjects ← fetchSlimSubjectsByIDs (subject_id <$> values);
          characters ← fetchSlimCharactersByIDs (crt_id <$> values);
          mret ((λ x,
                   {| PersonCharacterRelationWiki.subjectId := subject_id x;
                      PersonCharacterRelationWiki.subjectName :=
                        orEmpty (name <$> subjects !! subject_id x);
                      PersonCharacterRelationWiki.characterId := crt_id x;
                      PersonCharacterRelationWiki.characterName :=
                        orEmpty (name <$> characters !! crt_id x) |})
                <$> values)
      end
  end.

End Details.

(** ** The optimistic concurrency check *)

Definition nl : string := String (Ascii.ascii_of_nat 10) "".
Definition tab : string := String (Ascii.ascii_of_nat 9) "".

(** Modelled from the spec: the text that [lib/wiki.ts] (not among the
    sources) builds for one mismatched field.  "Field name header, expected
    line prefixed -, current line prefixed +", laid out as the example of
    the edit route's 400 response. *)
Definition readableDiff (field expected current : string) : string :=
  "Index: " +:+ field +:+ nl
  +:+ "===================================================================" +:+ nl
  +:+ "--- " +:+ field +:+ tab +:+ "expected" +:+ nl
  +:+ "+++ " +:+ field +:+ tab +:+ "current" +:+ nl
  +:+ "@@ -1,1 +1,1 @@" +:+ nl
  +:+ "-" +:+ expected +:+ nl
  +:+ "+" +:+ current +:+ nl.

(** Modelled from the spec: part of [matchExpected] below.  The fields of
    [expected] whose value differs from the one in [current], each with
    both values; a field [current] lacks is shown with an empty current
    value. *)
Definition mismatches (expected current : gmap string string) :
    list (string * string * string) :=
  omap (λ kv, if decide (current !! kv.1 = Some kv.2) then None
              else Some (kv.1, kv.2, default "" (current !! kv.1)))
       (map_to_list expected).

Fixpoint concat_strings (l : list string) : string :=
  match l with
  | [] => ""
  | s :: l => s +:+ concat_strings l
  end.

(** [s] occurs in [t]. *)
Definition substring (s t : string) : Prop :=
  ∃ pre post, t = pre +:+ s +:+ post.

(** Modelled from the spec: [matchExpected] and [WikiChangedError] are
    imported from [lib/wiki.ts], which is not among the sources.
    "Fails with a ConcurrentModification error carrying a human-readable
    unified-diff-style description when any field present in expected does
    not equal the corresponding field in current.  Fields absent from
    expected are skipped.  The diff description lists, per mismatched
    field, the expected value and the actually-current value". *)
Definition matchExpected (expected current : gmap string string) : Result unit :=
  match mismatches expected current with
  | [] => Ok ()
  | ms => Err (WikiChangedError
                 (concat_strings ((λ m, readableDiff m.1.1 m.1.2 m.2) <$> ms)))
  end.

Definition liftResult {A} (r : Result A) : M A := λ w, (r, w).

(** ** Person wiki info and edit *)

Module wiki.
Record PersonWikiInfo : Type := {
  id : Z;
  name : string;
  typeID : Z;
  infobox : string;
  summary : string;
}.
End wiki.

(** JavaScript truthiness of a number. *)
Definition truthy (z : Z) : bool := negb (z =? 0).

(** [PersonRepo.findOneBy({ id, redirect })]; [redirect = None] leaves the
    column unconstrained. *)
Definition PersonRepo_findOneBy (id : Z) (redirect : option Z) : M (option entity.Person) :=
  _ ← emit (DbSelect "person");
  d ← getDb;
  mret (p ← persons d !! id;
        if from_option (λ r, bool_decide (entity.redirect p = r)) true redirect
        then Some p else None).

(** A write is rejected when the storage is failing. *)
Definition storageAccepts : M unit := λ w,
  if saveFails w then (Err StorageError, w) else (Ok (), w).

(** [PersonRepo.save(p)] for the row [id]. *)
Definition PersonRepo_save (id : Z) (p : entity.Person) : M unit :=
  _ ← emit (DbWrite "person");
  _ ← storageAccepts;
  d ← getDb;
  putDb {| chiiRevHistory := chiiRevHistory d;
           chiiRevTextRows := chiiRevTextRows d;
           persons := <[id := p]> (persons d);
           users := users d;
           subjects := subjects d;
           characters := characters d |}.

(** [AppDataSource.transaction]: the callback's writes are committed when
    it returns and undone when it throws. *)
Definition transaction {A} (body : M A) : M A := λ w,
  match body w with
  | (Ok a, w') => (Ok a, w')
  | (Err e, w') => (Err e, {| db := db w; log := log w'; saveFails := saveFails w' |})
  end.

Section WikiInfo.

(** The text of the numbers beyond the safe range, see [Number_toString]. *)
Variable toStringBeyond : Z → string.

Definition getPersonWikiInfo (personID : Z) : M wiki.PersonWikiInfo :=
  p ← PersonRepo_findOneBy personID (Some 0);
  match p with
  | None => throw (NotFoundError ("person " +:+ Number_toString toStringBeyond personID))
  | Some p =>
      if truthy (entity.lock p) then throw (NotAllowedError "edit a locked person")
      else mret {| wiki.id := personID;
                   wiki.name := entity.name p;
                   wiki.infobox := entity.infobox p;
                   wiki.summary := entity.summary p;
                   wiki.typeID := entity.type p |}
  end.

End WikiInfo.

Record Auth : Type := { userID : Z; mono_edit : bool }.

Record PatchBody : Type := {
  commitMessage : string;
  expectedRevision : gmap string string;
  person : gmap string string;
}.

Record PersonRev : Type := {
  crt_name : string;
  crt_infobox : string;
  crt_summary : string;
  extra_img : string;
}.

Record RevisionInput : Type := {
  mid : Z;
  type : RevType;
  rev : PersonRev;
  creator : Z;
  comment : string;
}.

(** The three assignments of the edit: [input.f ?? p.f] per field. *)
Definition applyEdit (input : gmap string string) (p : entity.Person) : entity.Person :=
  {| entity.infobox := default (entity.infobox p) (input !! "infobox");
     entity.name := default (entity.name p) (input !! "name");
     entity.summary := default (entity.summary p) (input !! "summary");
     entity.lock := entity.lock p;
     entity.redirect := entity.redirect p;
     entity.type := entity.type p;
     entity.img := entity.img p |}.

Section Edit.

(** The text of the numbers beyond the safe range, see [Number_toString]. *)
Variable toStringBeyond : Z → string.

(** [createRevision] of [lib/orm/entity], which is not among the sources:
    some action inside the transaction. *)
Variable createRevision : RevisionInput → M unit.

Definition patchPersonInfo (auth : Auth) (body : PatchBody) (personID : Z) : M unit :=
  let input := person body in
  if negb (mono_edit auth) then throw (NotAllowedError "edit person")
  else
    transaction (
      p ← PersonRepo_findOneBy personID None;
      match p with
      | None => throw (NotFoundError ("person " +:+ Number_toString toStringBeyond personID))
      | Some p =>
          if truthy (entity.lock p) || truthy (entity.redirect p) then throw LockedError
          else
            _ ← liftResult (matchExpected (expectedRevision body)
                   {[ "name" := entity.name p;
                      "infobox" := entity.infobox p;
                      "summary" := entity.summary p ]});
            let p := applyEdit input p in
            _ ← PersonRepo_save personID p;
            createRevision
              {| mid := personID;
                 type := personEdit;
                 rev := {| crt_name := entity.name p;
                           crt_infobox := entity.infobox p;
                           crt_summary := entity.summary p;
                           extra_img := entity.img p |};
                 creator := userID auth;
                 comment := commitMessage body |}
      end).

End Edit.

(** Modelled from the spec: [createRevision] of [lib/orm/entity] is not
    among the sources; the revision store is an "append-only log of
    (revision id, target id, revision-type tag, editor id, timestamp, commit
    message, ...)".  When [createRevision] returns, it has appended one row
    to the log for the given target, type, editor and comment, and has left
    the person table alone.  When it throws, nothing is assumed. *)
Definition createRevisionContract (createRevision : RevisionInput → M unit) : Prop :=
  ∀ (inp : RevisionInput) (w w' : World) (u : unit),
    createRevision inp w = (Ok u, w') →
    persons (db w') = persons (db w)
    ∧ ∃ row, chiiRevHistory (db w') = (chiiRevHistory (db w) ++ [row])%list
             ∧ revMid row = mid inp
             ∧ revType row = type inp
             ∧ revCreator row = creator inp
             ∧ revEditSummary row = comment inp.

(** Whether a result is an error of the given kind. *)
Definition raises {A} (k : ErrorKind) (r : Result A) : bool :=
  match r with
  | Err e => bool_decide (kindOf e = k)
  | Ok _ => false
  end.

(** ** Sample data *)

Module sample.

Definition ghostUser (id : Z) : SlimUser := {| username := "ghost " +:+ pretty id |}.

(** A text for the numbers beyond the safe range. *)
Definition toStringBeyond (z : Z) : string :=
  if bool_decide (z = 10 ^ 21) then "1e+21" else "1e+22".

Definition mkRev (id : Z) (ty : RevType) (target editor : Z) : RevHistory :=
  {| revId := id; revType := ty; revMid := target; revTextId := id;
     createdAt := 1700000000 + id; revCreator := editor;
     revEditSummary := "edit " +:+ pretty id |}.

Definition mkItem (subject related : Z) : RevItem :=
  {| subject_id := subject; crt_type := related; prsn_id := related;
     position := related; crt_id := related |}.

Definition mkPerson (n : string) (locked : Z) : entity.Person :=
  {| entity.name := n; entity.infobox := "{{Infobox}}"; entity.summary := "";
     entity.lock := locked; entity.redirect := 0; entity.type := 1;
     entity.img := "" |}.

(** Character 7 has five subject-relation revisions: 11, 13, 15, 16, 17.
    Editor 99 has no user record; person 2 is locked. *)
Definition database : Database :=
  {| chiiRevHistory :=
       [ mkRev 11 characterSubjectRelation 7 1;
         mkRev 12 characterCastRelation 7 1;
         mkRev 13 characterSubjectRelation 7 2;
         mkRev 14 characterSubjectRelation 8 1;
         mkRev 17 characterSubjectRelation 7 2;
         mkRev 15 characterSubjectRelation 7 99;
         mkRev 16 characterSubjectRelation 7 1 ];
     chiiRevTextRows := [ {| chiiRevText.revTextId := 11; chiiRevText.revText := "blob 11" |} ];
     persons := {[ 1 := mkPerson "A" 0; 2 := mkPerson "L" 1 ]};
     users := {[ 1 := {| username := "alice" |}; 2 := {| username := "bob" |} ]};
     subjects := {[ 100 := {| name := "Subject 100" |} ]};
     characters := ∅ |}.

Definition world : World := {| db := database; log := []; saveFails := false |}.

(** Blob 11 holds two entries for revision 11; subject 200 and the
    related ids 3 and 4 have no name record. *)
Definition deserialize (blob : string) : option RevRecord :=
  if decide (blob = "blob 11")
  then Some {[ 11 := [ ("0", mkItem 100 3); ("1", mkItem 200 4) ] ]}
  else None.

(** A [createRevision] that appends the row under the next free id. *)
Definition createRevision (inp : RevisionInput) : M unit :=
  _ ← emit (DbWrite "chiiRevHistory");
  _ ← storageAccepts;
  d ← getDb;
  putDb {| chiiRevHistory :=
             chiiRevHistory d
             ++ [ {| revId := 1 + foldr Z.max 0 (revId <$> chiiRevHistory d);
                     revType := type inp; revMid := mid inp; revTextId := 0;
                     createdAt := 0; revCreator := creator inp;
                     revEditSummary := comment inp |} ];
           chiiRevTextRows := chiiRevTextRows d;
           persons := persons d;
           users := users d;
           subjects := subjects d;
           characters := characters d |}.

(** A [createRevision] that writes its row and then throws. *)
Definition brokenCreateRevision (inp : RevisionInput) : M unit :=
  _ ← createRevision inp;
  throw StorageError.

Definition auth : Auth := {| userID := 1; mono_edit := true |}.

(** Rename person 1 from "A" to "B", expecting the name to be "A". *)
Definition body : PatchBody :=
  {| commitMessage := "rename";
     expectedRevision := {[ "name" := "A" ]};
     person := {[ "name" := "B" ]} |}.

End sample.

(** ** The body schema of the edit *)

(** [t.Partial(PersonEdit, { additionalProperties: false })]: each of
    [name], [infobox] and [summary] may be absent, no other key is
    accepted, and [name] and [infobox] have [minLength: 1]. *)
Definition Partial_PersonEdit (o : gmap string string) : bool :=
  bool_decide (dom o ⊆ ({[ "name"; "infobox"; "summary" ]} : gset string))
  && from_option (λ s, bool_decide (1 ≤ String.length s)%nat) true (o !! "name")
  && from_option (λ s, bool_decide (1 ≤ String.length s)%nat) true (o !! "infobox").

(** The [body] schema of [patchPersonInfo]. *)
Definition patchPersonInfo_body (body : PatchBody) : bool :=
  bool_decide (1 ≤ String.length (commitMessage body))%nat
  && Partial_PersonEdit (expectedRevision body)
  && Partial_PersonEdit (person body).

(** ** More sample data *)

Module sample2.

(** The sample database with one more revision, 21, whose text id points
    at blob 11; that blob has no entry for 21. *)
Definition database : Database :=
  {| chiiRevHistory :=
       {| revId := 21; revType := characterSubjectRelation; revMid := 7;
          revTextId := 11; createdAt := 1700000021; revCreator := 1;
          revEditSummary := "edit 21" |} :: chiiRevHistory sample.database;
     chiiRevTextRows := chiiRevTextRows sample.database;
     persons := <[ 3 := {| entity.name := "R"; entity.infobox := "{{Infobox}}";
                           entity.summary := ""; entity.lock := 0;
                           entity.redirect := 1; entity.type := 1;
                           entity.img := "" |} ]> (persons sample.database);
     users := users sample.database;
     subjects := subjects sample.database;
     characters := characters sample.database |}.

Definition world : World := {| db := database; log := []; saveFails := false |}.

(** A table in which two rows share the revision id 5. *)
Definition duplicates : World :=
  {| db := {| chiiRevHistory :=
                [ sample.mkRev 5 characterSubjectRelation 7 1;
                  sample.mkRev 5 characterSubjectRelation 7 2 ];
              chiiRevTextRows := [];
              persons := ∅;
              users := users sample.database;
              subjects := ∅;
              characters := ∅ |};
     log := []; saveFails := false |}.

(** An edit that submits no field. *)
Definition emptyBody : PatchBody :=
  {| commitMessage := "touch"; expectedRevision := ∅; person := ∅ |}.

End sample2.

(** * Properties *)

(** ** Numbers and the id schema *)

Lemma isInteger_true (q : Q) : isInteger q = true ↔ ∃ z : Z, (q == inject_Z z)%Q.
Proof.
  unfold isInteger. rewrite Qeq_bool_iff. split.
  - intros H. by exists (Qfloor q).
  - intros [z Hz]. rewrite Hz at 2. by rewrite Qfloor_Z.
Qed.

(** The id schema accepts exactly the numbers that are an integer [z ≥ 1]. *)
Lemma t_Integer_min1 (v : jsval) :
  t_Integer (Some 1) None v = true ↔
  ∃ q z, v = JNumber q ∧ (q == inject_Z z)%Q ∧ 0 < z.
Proof.
  destruct v as [| b | s | q]; simpl;
    try (split; [done | by intros (?&?&?&?)]).
  rewrite andb_true_r, andb_true_iff, isInteger_true, Qle_bool_iff. split.
  - intros [[z Hz] Hle]. exists q, z. split_and!; [done..|].
    rewrite Hz, <- Zle_Qle in Hle. lia.
  - intros (q' & z & [= <-] & Hz & Hpos). split; [by exists z|].
    rewrite Hz. rewrite <- Zle_Qle. lia.
Qed.

(** On an integer target id, [matching] is the filter of the
    specification: same target and a revision type among the tags. *)
Lemma matching_integer (q : Q) (z : Z) (revTypes : list RevType) (r : RevHistory) :
  (q == inject_Z z)%Q →
  matching q revTypes r = bool_decide (revMid r = z ∧ revType r ∈ revTypes).
Proof.
  intros Hq. unfold matching.
  destruct (Qeq_bool (inject_Z (revMid r)) q) eqn:E; simpl.
  - apply Qeq_bool_eq in E.
    assert (Hz : revMid r = z)
      by (apply inject_Z_injective; exact (Qeq_trans _ _ _ E Hq)).
    apply bool_decide_ext. split; [by intros ? | by intros [_ ?]].
  - apply Qeq_bool_neq in E. symmetry. apply bool_decide_eq_false.
    intros [<- _]. apply E. symmetry. exact Hq.
Qed.

Lemma filter_matching_integer (q : Q) (z : Z) (revTypes : list RevType)
    (rows : list RevHistory) :
  (q == inject_Z z)%Q →
  List.filter (matching q revTypes) rows
  = filter (λ r, revMid r = z ∧ revType r ∈ revTypes) rows.
Proof.
  intros Hq. induction rows as [| r rows IH]; [done|].
  simpl. rewrite filter_cons, (matching_integer q z), IH by done.
  by destruct (decide _) as [H|H];
    [rewrite bool_decide_eq_true_2 | rewrite bool_decide_eq_false_2].
Qed.

Lemma filter_bool_sublist {A} (f : A → bool) (l : list A) :
  List.filter f l `sublist_of` l.
Proof.
  induction l as [| x l IH]; simpl; [done|].
  destruct (f x); by constructor.
Qed.

(** ** Counting and paging *)

Lemma remove_dups_NoDup_length {A} `{EqDecision A} (l : list A) :
  NoDup l → length (remove_dups l) = length l.
Proof.
  induction 1 as [| x l Hx _ IH]; simpl; [done|].
  destruct (decide_rel _ x l); [done|]. simpl. by rewrite IH.
Qed.

Lemma revId_NoDup_filter (f : RevHistory → bool) (rows : list RevHistory) :
  NoDup (revId <$> rows) → NoDup (revId <$> List.filter f rows).
Proof.
  intros Hpk. eapply sublist_NoDup; [exact Hpk|].
  apply fmap_sublist, filter_bool_sublist.
Qed.

(** Under the primary key, counting distinct ids counts rows. *)
Lemma countDistinct_rows (d : Database) (q : Q) (revTypes : list RevType) :
  NoDup (revId <$> chiiRevHistory d) →
  countDistinct d q revTypes
  = Z.of_nat (length (List.filter (matching q revTypes) (chiiRevHistory d))).
Proof.
  intros Hpk. unfold countDistinct.
  rewrite remove_dups_NoDup_length by by apply revId_NoDup_filter.
  by rewrite length_fmap.
Qed.

Lemma historyRows_length (d : Database) (q : Q) (revTypes : list RevType) (o l : Z) :
  length (historyRows d q revTypes o l)
  = Nat.min (Z.to_nat l)
      (length (List.filter (matching q revTypes) (chiiRevHistory d)) - Z.to_nat o)%nat.
Proof.
  unfold historyRows. rewrite length_take, length_drop.
  by rewrite (Permutation_length (merge_sort_Permutation _ _)).
Qed.

(** ** Ordering *)

#[global] Instance desc_revId_trans : Transitive desc_revId.
Proof. intros a b c. unfold desc_revId. lia. Qed.

#[global] Instance desc_revId_total : Total desc_revId.
Proof. intros a b. unfold desc_revId. lia. Qed.

Lemma StronglySorted_lookup_lt {A} (R : relation A) (l : list A) (i j : nat) (a b : A) :
  StronglySorted R l → (i < j)%nat → l !! i = Some a → l !! j = Some b → R a b.
Proof.
  intros Hs. revert i j. induction Hs as [| x l Hs IH Hx]; intros i j Hij Ha Hb.
  - done.
  - destruct j as [| j]; [lia|]. destruct i as [| i]; simpl in *.
    + injection Ha as <-. rewrite Forall_forall in Hx.
      apply Hx, list_elem_of_lookup. by exists j.
    + apply (IH i j); [lia | done..].
Qed.

(** The ordered matching rows: newest first, and strictly so under the
    primary key. *)
Lemma sorted_rows_strict (f : RevHistory → bool) (rows : list RevHistory)
    (i j : nat) (a b : RevHistory) :
  NoDup (revId <$> rows) →
  (i < j)%nat →
  merge_sort desc_revId (List.filter f rows) !! i = Some a →
  merge_sort desc_revId (List.filter f rows) !! j = Some b →
  revId b < revId a.
Proof.
  intros Hpk Hij Ha Hb.
  pose proof (StronglySorted_merge_sort desc_revId (List.filter f rows)) as Hs.
  pose proof (StronglySorted_lookup_lt _ _ _ _ _ _ Hs Hij Ha Hb) as Hle.
  unfold desc_revId in Hle.
  assert (Hnd : NoDup (revId <$> merge_sort desc_revId (List.filter f rows))).
  { rewrite merge_sort_Permutation. by apply revId_NoDup_filter. }
  assert (revId a ≠ revId b); [|lia].
  intros Heq.
  assert (i = j); [|lia].
  apply (NoDup_lookup _ i j (revId a) Hnd).
  - by rewrite list_lookup_fmap, Ha.
  - by rewrite list_lookup_fmap, Hb, Heq.
Qed.

Lemma historyRows_strict (d : Database) (q : Q) (revTypes : list RevType) (o l : Z)
    (i : nat) (a b : RevHistory) :
  NoDup (revId <$> chiiRevHistory d) →
  historyRows d q revTypes o l !! i = Some a →
  historyRows d q revTypes o l !! S i = Some b →
  revId b < revId a.
Proof.
  unfold historyRows. intros Hpk Ha Hb.
  apply lookup_take_Some in Ha as [Ha _]. apply lookup_take_Some in Hb as [Hb _].
  rewrite lookup_drop in Ha, Hb.
  eapply (sorted_rows_strict _ _ (Z.to_nat o + i) (Z.to_nat o + S i)); [done | lia | done..].
Qed.

Section HistoryProperties.

Variable ghostUser : Z → SlimUser.
Variables (operationId summary idName : string) (revTypes : list RevType).

Let route := createRelationHistoryRoute ghostUser operationId summary idName revTypes.

(** What the handler returns on a numeric id, and what it logs. *)
Lemma handler_number (params : gmap string jsval) (query : Query) (w : World) (q : Q) :
  params !! idName = Some (JNumber q) →
  let rows := historyRows (db w) q revTypes
                (default 0 (offset query)) (default 20 (limit query)) in
  handler route params query w
  = (Ok {| res.total := countDistinct (db w) q revTypes;
           res.data := toSummary ghostUser
                         (byIDs (users (db w)) (revCreator <$> rows)) <$> rows |},
     {| db := db w;
        log := log w ++ [DbSelect "chiiRevHistory"; DbSelect "chiiRevHistory";
                         Call "fetchSlimUsersByIDs"];
        saveFails := saveFails w |}).
Proof.
  intros Hp. simpl. rewrite Hp.
  unfold selectCount, selectPage, fetchSlimUsersByIDs, mbind, M_bind, mret, M_ret,
    emit, getDb. simpl.
  by rewrite <- !app_assoc.
Qed.

Lemma handler_not_number (params : gmap string jsval) (query : Query) (w : World) :
  (∀ q, params !! idName ≠ Some (JNumber q)) →
  handler route params query w
  = (Err (TypeError (idName +:+ " should be a number")), w).
Proof.
  intros Hp. simpl.
  destruct (params !! idName) as [[| | |q]|] eqn:E; try done.
  by destruct (Hp q).
Qed.

(** A request that passes both schemas reaches the handler. *)
Lemma serve_valid (params : gmap string jsval) (query : Query) :
  schema_params route params = true →
  schema_querystring route query = true →
  serve route params query = handler route params query.
Proof. intros Hp Hq. unfold serve. by rewrite Hp, Hq. Qed.

Lemma serve_invalid_params (params : gmap string jsval) (query : Query) (w : World) :
  schema_params route params = false →
  serve route params query w = (Err (ValidationError "params"), w).
Proof. intros Hp. unfold serve. by rewrite Hp. Qed.

(** C1.  For a positive integer target id with [N] matching revisions,
    a limit in [1,100] and an offset [≥ 0], the history query succeeds with
    [total = N] whatever the limit and offset are, and with
    [min(limit, max(0, N - offset))] entries; past the last row the page is
    empty and the total is still [N].  The revision ids are the primary key
    of the revision table. *)
Theorem history_total_and_length
    (params : gmap string jsval) (w : World) (q : Q) (z l o : Z) :
  NoDup (revId <$> chiiRevHistory (db w)) →
  params !! idName = Some (JNumber q) → (q == inject_Z z)%Q → 0 < z →
  1 ≤ l ≤ 100 → 0 ≤ o →
  let N := Z.of_nat (length (filter (λ r, revMid r = z ∧ revType r ∈ revTypes)
                               (chiiRevHistory (db w)))) in
  ∃ page w',
    serve route params {| limit := Some l; offset := Some o |} w = (Ok page, w')
    ∧ res.total page = N
    ∧ Z.of_nat (length (res.data page)) = Z.min l (Z.max 0 (N - o))
    ∧ (N < o → res.data page = []).
Proof.
  intros Hpk Hp Hq Hz Hl Ho N.
  rewrite serve_valid; cycle 1.
  { unfold route. cbn [schema_params createRelationHistoryRoute]. rewrite Hp.
    cbn [from_option]. apply t_Integer_min1. by exists q, z. }
  { simpl. rewrite !bool_decide_eq_true_2 by lia. done. }
  rewrite (handler_number _ _ _ q) by done.
  eexists _, _. split; [done|]. simpl.
  assert (Hlen : Z.of_nat (length (historyRows (db w) q revTypes o l))
                 = Z.min l (Z.max 0 (N - o))).
  { rewrite historyRows_length.
    rewrite (filter_matching_integer q z) by done. fold N. lia. }
  split_and!.
  - rewrite countDistinct_rows by done.
    by rewrite (filter_matching_integer q z).
  - by rewrite length_fmap.
  - intros Hlt. apply nil_length_inv. rewrite length_fmap. lia.
Qed.


(** C4.  Every result of the history query lists the revisions newest
    first: consecutive entries have strictly decreasing ids.  The revision
    ids are the primary key of the revision table. *)
Theorem history_strictly_descending
    (params : gmap string jsval) (query : Query) (w w' : World)
    (page : res.Paged res.RelationHistory) :
  NoDup (revId <$> chiiRevHistory (db w)) →
  serve route params query w = (Ok page, w') →
  ∀ (i : nat) (a b : res.RelationHistory),
    res.data page !! i = Some a → res.data page !! S i = Some b →
    res.id a > res.id b.
Proof.
  intros Hpk Hrun i a b Ha Hb.
  unfold serve in Hrun.
  destruct (negb (schema_params route params)); [done|].
  destruct (negb (schema_querystring route query)); [done|].
  destruct (params !! idName) as [v|] eqn:Hp; cycle 1.
  { rewrite handler_not_number in Hrun; [done | by rewrite Hp]. }
  destruct v as [| ? | ? | q];
    try (rewrite handler_not_number in Hrun; [done | by rewrite Hp]).
  rewrite (handler_number _ _ _ q) in Hrun by done.
  injection Hrun as <- _. simpl in Ha, Hb.
  rewrite list_lookup_fmap in Ha, Hb.
  destruct (historyRows _ _ _ _ _ !! i) as [x|] eqn:Hx; [|done].
  destruct (historyRows _ _ _ _ _ !! S i) as [y|] eqn:Hy; [|done].
  injection Ha as <-. injection Hb as <-. simpl.
  pose proof (historyRows_strict _ _ _ _ _ _ _ _ Hpk Hx Hy). lia.
Qed.

(** C5.  A request whose target id is not a positive integer is refused
    with an InvalidArgument error, and the world is left as it was: no
    query was logged. *)
Theorem history_rejects_invalid_target
    (params : gmap string jsval) (query : Query) (w : World) :
  (¬ ∃ q z, params !! idName = Some (JNumber q) ∧ (q == inject_Z z)%Q ∧ 0 < z) →
  ∃ e, serve route params query w = (Err e, w) ∧ kindOf e = InvalidArgument.
Proof.
  intros Hbad. exists (ValidationError "params"). split; [|done].
  apply serve_invalid_params. apply not_true_is_false. intros Hok.
  apply Hbad. unfold route in Hok. cbn [schema_params createRelationHistoryRoute] in Hok.
  destruct (params !! idName) as [v|]; [|done]. cbn [from_option] in Hok.
  apply t_Integer_min1 in Hok as (q & z & -> & Hq & Hz). by exists q, z.
Qed.

(** C7.  On any database the handler answers a numeric target id; and
    every row whose editor is missing from the fetched users is returned
    under the ghost user's name for that editor id. *)
Theorem history_ghost_user
    (params : gmap string jsval) (query : Query) (w : World) (q : Q) :
  params !! idName = Some (JNumber q) →
  let rows := historyRows (db w) q revTypes
                (default 0 (offset query)) (default 20 (limit query)) in
  let fetched := byIDs (users (db w)) (revCreator <$> rows) in
  ∃ page w',
    handler route params query w = (Ok page, w')
    ∧ length (res.data page) = length rows
    ∧ ∀ (i : nat) (x : RevHistory),
        rows !! i = Some x → fetched !! revCreator x = None →
        ∃ e, res.data page !! i = Some e
             ∧ res.id e = revId x
             ∧ username (res.creator e) = username (ghostUser (revCreator x)).
Proof.
  intros Hp rows fetched. rewrite (handler_number _ _ _ q) by done.
  eexists _, _. split; [done|]. simpl. split; [by rewrite length_fmap|].
  intros i x Hx Hnone. eexists. rewrite list_lookup_fmap. fold rows. rewrite Hx.
  split; [done|]. simpl. fold rows fetched. by rewrite Hnone.
Qed.

End HistoryProperties.

(** ** Revision details *)

Lemma bind_run {A B} (m : M A) (f : A → M B) (w : World) :
  (m ≫= f) w
  = match m w with
    | (Ok a, w') => f a w'
    | (Err e, w') => (Err e, w')
    end.
Proof. done. Qed.

Lemma selectRevision_run (revisionID : Z) (w : World) :
  selectRevision revisionID w
  = (Ok (take 1 (filter (λ r, revId r = revisionID) (chiiRevHistory (db w)))),
     {| db := db w; log := log w ++ [DbSelect "chiiRevHistory"];
        saveFails := saveFails w |}).
Proof. done. Qed.

Lemma selectRevText_run (id : Z) (w : World) :
  selectRevText id w
  = (Ok (filter (λ t, chiiRevText.revTextId t = id) (chiiRevTextRows (db w))),
     {| db := db w; log := log w ++ [DbSelect "chiiRevText"];
        saveFails := saveFails w |}).
Proof. done. Qed.

Lemma fetchSlimSubjectsByIDs_run (ids : list Z) (w : World) :
  fetchSlimSubjectsByIDs ids w
  = (Ok (byIDs (subjects (db w)) ids),
     {| db := db w; log := log w ++ [Call "fetchSlimSubjectsByIDs"];
        saveFails := saveFails w |}).
Proof. done. Qed.

Lemma fetchSlimPersonsByIDs_run (ids : list Z) (w : World) :
  fetchSlimPersonsByIDs ids w
  = (Ok (byIDs ((λ p, {| name := entity.name p |}) <$> persons (db w)) ids),
     {| db := db w; log := log w ++ [Call "fetchSlimPersonsByIDs"];
        saveFails := saveFails w |}).
Proof. done. Qed.

Lemma fetchSlimCharactersByIDs_run (ids : list Z) (w : World) :
  fetchSlimCharactersByIDs ids w
  = (Ok (byIDs (characters (db w)) ids),
     {| db := db w; log := log w ++ [Call "fetchSlimCharactersByIDs"];
        saveFails := saveFails w |}).
Proof. done. Qed.

Lemma no_revision_filter (revisionID : Z) (rows : list RevHistory) :
  (∀ r, r ∈ rows → revId r ≠ revisionID) →
  filter (λ r, revId r = revisionID) rows = [].
Proof.
  intros Hno. induction rows as [| r rows IH]; [done|].
  rewrite filter_cons_False.
  - apply IH. intros r' Hr'. apply Hno. by right.
  - apply Hno. by left.
Qed.

(** A safe integer is written in decimal. *)
Lemma Number_toString_safe (toStringBeyond : Z → string) (z : Z) :
  isSafeInteger z = true → Number_toString toStringBeyond z = pretty z.
Proof. intros Hz. unfold Number_toString. by rewrite Hz. Qed.

Section DetailProperties.

Variable toStringBeyond : Z → string.
Variable deserialize : string → option RevRecord.

(** C8.  When no row of the revision store has the requested id, each
    revision-detail lookup throws [NotFoundError] with the message
    ["revision <id>"], the id written as the number it is (in decimal for
    every safe integer), after the one query on the revision table: neither
    the blob table nor the deserializer was reached. *)
Theorem revision_detail_not_found (revisionID : Z) (w : World) :
  (∀ r, r ∈ chiiRevHistory (db w) → revId r ≠ revisionID) →
  let e := NotFoundError ("revision " +:+ Number_toString toStringBeyond revisionID) in
  let w' := {| db := db w; log := log w ++ [DbSelect "chiiRevHistory"];
               saveFails := saveFails w |} in
  kindOf e = NotFound
  ∧ getCharacterSubjectRevision toStringBeyond deserialize revisionID w = (Err e, w')
  ∧ getCharacterPersonRevision toStringBeyond deserialize revisionID w = (Err e, w')
  ∧ getPersonSubjectRevision toStringBeyond deserialize revisionID w = (Err e, w')
  ∧ getPersonCharacterRevision toStringBeyond deserialize revisionID w = (Err e, w')
  ∧ (isSafeInteger revisionID = true →
     e = NotFoundError ("revision " +:+ pretty revisionID)).
Proof.
  intros Hno e w'. split; [done|].
  unfold getCharacterSubjectRevision, getCharacterPersonRevision,
    getPersonSubjectRevision, getPersonCharacterRevision.
  split_and!;
    try (by rewrite bind_run, selectRevision_run, no_revision_filter).
  intros Hsafe. unfold e. by rewrite Number_toString_safe.
Qed.

Lemma RevText_deserialize_run (blob : string) (revRecord : RevRecord) (w : World) :
  deserialize blob = Some revRecord →
  RevText_deserialize deserialize blob w
  = (Ok revRecord,
     {| db := db w; log := log w ++ [Call "RevText.deserialize"];
        saveFails := saveFails w |}).
Proof. intros H. unfold RevText_deserialize. rewrite bind_run. cbn. by rewrite H. Qed.

Lemma valuesOf_run (revRecord : RevRecord) (revisionID : Z) (revContent : RevContent)
    (w : World) :
  revRecord !! revisionID = Some revContent →
  valuesOf revRecord revisionID w = (Ok (Object_values revContent), w).
Proof. intros H. unfold valuesOf. by rewrite H. Qed.

Ltac run_detail H1 H2 H3 H4 :=
  rewrite bind_run, selectRevision_run, H1; cbn [take]; cbv beta iota;
  rewrite bind_run, selectRevText_run; cbn [db]; rewrite H2; cbv beta iota;
  rewrite bind_run, (RevText_deserialize_run _ _ _ H3); cbv beta iota;
  rewrite bind_run, (valuesOf_run _ _ _ _ H4); cbv beta iota;
  repeat (rewrite bind_run;
          first [ rewrite fetchSlimSubjectsByIDs_run
                | rewrite fetchSlimPersonsByIDs_run
                | rewrite fetchSlimCharactersByIDs_run ];
          cbv beta iota; cbn [db]).

(** C9.  Once the blob of an existing revision is decoded and holds an
    entry for it, each detail lookup answers with one fact per entry, in
    order, carrying the entry's numeric ids; a name is the empty string
    whenever the bulk fetch did not return the referenced subject, person
    or character. *)
Theorem revision_detail_missing_names
    (revisionID : Z) (w : World) (r : RevHistory) (rs : list RevHistory)
    (t : chiiRevText.row) (ts : list chiiRevText.row)
    (revRecord : RevRecord) (revContent : RevContent) :
  filter (λ r, revId r = revisionID) (chiiRevHistory (db w)) = r :: rs →
  filter (λ t, chiiRevText.revTextId t = revTextId r) (chiiRevTextRows (db w)) = t :: ts →
  deserialize (chiiRevText.revText t) = Some revRecord →
  revRecord !! revisionID = Some revContent →
  let values := Object_values revContent in
  let subjects := byIDs (subjects (db w)) (subject_id <$> values) in
  let persons :=
    byIDs ((λ p, {| name := entity.name p |}) <$> persons (db w)) (prsn_id <$> values) in
  let characters := byIDs (characters (db w)) (crt_id <$> values) in
  (∃ out w',
     getCharacterSubjectRevision toStringBeyond deserialize revisionID w = (Ok out, w')
     ∧ length out = length values
     ∧ ∀ (i : nat) (x : RevItem), values !! i = Some x →
         ∃ o, out !! i = Some o
              ∧ CharacterSubjectRelationWiki.subjectId o = subject_id x
              ∧ CharacterSubjectRelationWiki.characterType o = crt_type x
              ∧ (subjects !! subject_id x = None →
                 CharacterSubjectRelationWiki.subjectName o = ""))
  ∧ (∃ out w',
     getCharacterPersonRevision toStringBeyond deserialize revisionID w = (Ok out, w')
     ∧ length out = length values
     ∧ ∀ (i : nat) (x : RevItem), values !! i = Some x →
         ∃ o, out !! i = Some o
              ∧ CharacterPersonRelationWiki.subjectId o = subject_id x
              ∧ CharacterPersonRelationWiki.personId o = prsn_id x
              ∧ (subjects !! subject_id x = None →
                 CharacterPersonRelationWiki.subjectName o = "")
              ∧ (persons !! prsn_id x = None →
                 CharacterPersonRelationWiki.personName o = ""))
  ∧ (∃ out w',
     getPersonSubjectRevision toStringBeyond deserialize revisionID w = (Ok out, w')
     ∧ length out = length values
     ∧ ∀ (i : nat) (x : RevItem), values !! i = Some x →
         ∃ o, out !! i = Some o
              ∧ PersonSubjectRelationWiki.subjectId o = subject_id x
              ∧ PersonSubjectRelationWiki.position o = position x
              ∧ (subjects !! subject_id x = None →
                 PersonSubjectRelationWiki.subjectName o = ""))
  ∧ (∃ out w',
     getPersonCharacterRevision toStringBeyond deserialize revisionID w = (Ok out, w')
     ∧ length out = length values
     ∧ ∀ (i : nat) (x : RevItem), values !! i = Some x →
         ∃ o, out !! i = Some o
              ∧ PersonCharacterRelationWiki.subjectId o = subject_id x
              ∧ PersonCharacterRelationWiki.characterId o = crt_id x
              ∧ (subjects !! subject_id x = None →
                 PersonCharacterRelationWiki.subjectName o = "")
              ∧ (characters !! crt_id x = None →
                 PersonCharacterRelationWiki.characterName o = "")).
Proof.
  intros H1 H2 H3 H4 values subjects persons characters.
  split_and!.
  - unfold getCharacterSubjectRevision. run_detail H1 H2 H3 H4.
    eexists _, _. split; [done|]. split; [by rewrite length_fmap|].
    intros i x Hx. eexists. rewrite list_lookup_fmap. fold values. rewrite Hx.
    split; [done|]. cbn. split_and!; [done..|].
    fold values subjects. by intros ->.
  - unfold getCharacterPersonRevision. run_detail H1 H2 H3 H4.
    eexists _, _. split; [done|]. split; [by rewrite length_fmap|].
    intros i x Hx. eexists. rewrite list_lookup_fmap. fold values. rewrite Hx.
    split; [done|]. cbn. split_and!; [done..| |].
    + fold values subjects. by intros ->.
    + fold values persons. by intros ->.
  - unfold getPersonSubjectRevision. run_detail H1 H2 H3 H4.
    eexists _, _. split; [done|]. split; [by rewrite length_fmap|].
    intros i x Hx. eexists. rewrite list_lookup_fmap. fold values. rewrite Hx.
    split; [done|]. cbn. split_and!; [done..|].
    fold values subjects. by intros ->.
  - unfold getPersonCharacterRevision. run_detail H1 H2 H3 H4.
    eexists _, _. split; [done|]. split; [by rewrite length_fmap|].
    intros i x Hx. eexists. rewrite list_lookup_fmap. fold values. rewrite Hx.
    split; [done|]. cbn. split_and!; [done..| |].
    + fold values subjects. by intros ->.
    + fold values characters. by intros ->.
Qed.

End DetailProperties.

(** ** The optimistic concurrency check *)

Lemma append_assoc (a b c : string) : (a +:+ b) +:+ c = a +:+ b +:+ c.
Proof.
  induction a as [| x a IH]; [done|].
  change (String x ((a +:+ b) +:+ c) = String x (a +:+ b +:+ c)). by f_equal.
Qed.

Lemma append_empty_r (s : string) : s +:+ "" = s.
Proof.
  induction s as [| x s IH]; [done|].
  change (String x (s +:+ "") = String x s). by f_equal.
Qed.

Lemma substring_refl (s : string) : substring s s.
Proof. exists "", "". by rewrite append_empty_r. Qed.

Lemma substring_trans (a b c : string) : substring a b → substring b c → substring a c.
Proof.
  intros (p1 & q1 & ->) (p2 & q2 & ->). exists (p2 +:+ p1), (q1 +:+ q2).
  by rewrite !append_assoc.
Qed.

Lemma substring_app_l (s a b : string) : substring s a → substring s (a +:+ b).
Proof.
  intros (p & q & ->). exists p, (q +:+ b). by rewrite !append_assoc.
Qed.

Lemma substring_app_r (s a b : string) : substring s b → substring s (a +:+ b).
Proof.
  intros (p & q & ->). exists (a +:+ p), q. by rewrite !append_assoc.
Qed.

Lemma substring_concat (s : string) (l : list string) :
  s ∈ l → substring s (concat_strings l).
Proof.
  induction 1 as [s l | s x l _ IH]; cbn [concat_strings].
  - apply substring_app_l, substring_refl.
  - by apply substring_app_r.
Qed.

(** The header of a field's description names the field. *)
Lemma readableDiff_header (field expected current : string) :
  substring ("Index: " +:+ field +:+ nl) (readableDiff field expected current).
Proof.
  unfold readableDiff. rewrite <- !append_assoc.
  repeat (first [apply substring_refl | apply substring_app_l]).
Qed.

(** Its last two lines are the expected value after [-] and the current
    value after [+]. *)
Lemma readableDiff_values (field expected current : string) :
  substring ("-" +:+ expected +:+ nl +:+ "+" +:+ current +:+ nl)
            (readableDiff field expected current).
Proof.
  unfold readableDiff.
  repeat (first [apply substring_refl | apply substring_app_r]).
Qed.

Lemma mismatches_nil (expected current : gmap string string) :
  mismatches expected current = []
  ↔ ∀ k v, expected !! k = Some v → current !! k = Some v.
Proof.
  unfold mismatches. split.
  - intros Hnil k v Hkv.
    destruct (decide (current !! k = Some v)) as [|Hne]; [done|].
    assert (Hin : (k, v, default "" (current !! k))
                  ∈ omap (λ kv : string * string,
                            if decide (current !! kv.1 = Some kv.2) then None
                            else Some (kv.1, kv.2, default "" (current !! kv.1)))
                         (map_to_list expected)).
    { apply list_elem_of_omap. exists (k, v). split.
      - by apply elem_of_map_to_list.
      - simpl. by rewrite decide_False. }
    rewrite Hnil in Hin. by apply elem_of_nil in Hin.
  - intros Hall.
    destruct (omap _ _) as [| y l] eqn:E; [done|].
    assert (Hin : y ∈ y :: l) by left.
    rewrite <- E in Hin. apply list_elem_of_omap in Hin as ([k v] & Hkv & Hg).
    apply elem_of_map_to_list in Hkv. simpl in Hg.
    by rewrite decide_True in Hg by by apply Hall.
Qed.

Lemma mismatches_elem (expected current : gmap string string) (k v cv : string) :
  expected !! k = Some v → current !! k = Some cv → v ≠ cv →
  (k, v, cv) ∈ mismatches expected current.
Proof.
  intros Hk Hc Hne. unfold mismatches. apply list_elem_of_omap.
  exists (k, v). split; [by apply elem_of_map_to_list|].
  simpl. rewrite Hc. rewrite decide_False by congruence. done.
Qed.

Lemma matchExpected_ok (expected current : gmap string string) :
  matchExpected expected current = Ok ()
  ↔ ∀ k v, expected !! k = Some v → current !! k = Some v.
Proof.
  rewrite <- mismatches_nil. unfold matchExpected.
  by destruct (mismatches expected current).
Qed.

(** C2.  The check succeeds exactly when every field of [expected] has the
    same value in [current]; otherwise it fails with a
    ConcurrentModification error ([WikiChangedError]) whose text holds, for
    each field that is in both with different values, that field's
    description: its name, the expected value and the current value. *)
Theorem matchExpected_spec (expected current : gmap string string) :
  (matchExpected expected current = Ok ()
   ↔ ∀ k v, expected !! k = Some v → current !! k = Some v)
  ∧ (matchExpected expected current = Ok ()
     ∨ ∃ diff,
         matchExpected expected current = Err (WikiChangedError diff)
         ∧ kindOf (WikiChangedError diff) = ConcurrentModification
         ∧ ∀ k v cv, expected !! k = Some v → current !! k = Some cv → v ≠ cv →
             substring (readableDiff k v cv) diff
             ∧ substring ("Index: " +:+ k +:+ nl) diff
             ∧ substring ("-" +:+ v +:+ nl +:+ "+" +:+ cv +:+ nl) diff).
Proof.
  split; [apply matchExpected_ok|].
  unfold matchExpected.
  destruct (mismatches expected current) as [| m ms] eqn:E; [by left|].
  right. eexists. split; [done|]. split; [done|].
  intros k v cv Hk Hc Hne.
  assert (Hblock : substring (readableDiff k v cv)
            (concat_strings ((λ m, readableDiff m.1.1 m.1.2 m.2) <$> m :: ms))).
  { apply substring_concat. rewrite <- E.
    apply (list_elem_of_fmap_2 (λ m, readableDiff m.1.1 m.1.2 m.2) _ (k, v, cv)).
    by apply mismatches_elem. }
  split_and!; [done | |].
  - eapply substring_trans; [apply readableDiff_header | exact Hblock].
  - eapply substring_trans; [apply readableDiff_values | exact Hblock].
Qed.

(** An empty expectation never conflicts. *)
Lemma matchExpected_empty (current : gmap string string) :
  matchExpected ∅ current = Ok ().
Proof. apply matchExpected_ok. intros k v Hk. by rewrite lookup_empty in Hk. Qed.

Example matchExpected_same :
  matchExpected {[ "name" := "A" ]} {[ "name" := "A"; "infobox" := "X" ]} = Ok ().
Proof. by vm_compute. Qed.

Example matchExpected_changed :
  matchExpected {[ "name" := "A" ]} {[ "name" := "B" ]}
  = Err (WikiChangedError (readableDiff "name" "A" "B")).
Proof. by vm_compute. Qed.

(** ** The person edit *)

Lemma PersonRepo_findOneBy_any (id : Z) (w : World) :
  PersonRepo_findOneBy id None w
  = (Ok (persons (db w) !! id),
     {| db := db w; log := log w ++ [DbSelect "person"]; saveFails := saveFails w |}).
Proof.
  transitivity
    (Ok (p ← persons (db w) !! id; Some p),
     {| db := db w; log := log w ++ [DbSelect "person"]; saveFails := saveFails w |});
    [done|].
  by destruct (persons (db w) !! id).
Qed.

Lemma PersonRepo_findOneBy_redirect0 (id : Z) (w : World) :
  PersonRepo_findOneBy id (Some 0) w
  = (Ok (p ← persons (db w) !! id;
         if bool_decide (entity.redirect p = 0) then Some p else None),
     {| db := db w; log := log w ++ [DbSelect "person"]; saveFails := saveFails w |}).
Proof. done. Qed.

Lemma PersonRepo_save_run (id : Z) (p : entity.Person) (w : World) :
  PersonRepo_save id p w
  = let w1 := {| db := db w; log := log w ++ [DbWrite "person"];
                 saveFails := saveFails w |} in
    if saveFails w then (Err StorageError, w1)
    else (Ok (),
          {| db := {| chiiRevHistory := chiiRevHistory (db w);
                      chiiRevTextRows := chiiRevTextRows (db w);
                      persons := <[id := p]> (persons (db w));
                      users := users (db w);
                      subjects := subjects (db w);
                      characters := characters (db w) |};
             log := log w1; saveFails := saveFails w |}).
Proof. by destruct w as [d l [|]]. Qed.

Section EditProperties.

Variable toStringBeyond : Z → string.
Variable createRevision : RevisionInput → M unit.
Hypothesis contract : createRevisionContract createRevision.

(** A successful edit, taken apart. *)
Lemma patch_ok_inv (auth : Auth) (body : PatchBody) (personID : Z)
    (w w' : World) (u : unit) :
  patchPersonInfo toStringBeyond createRevision auth body personID w = (Ok u, w') →
  ∃ p row,
    persons (db w) !! personID = Some p
    ∧ persons (db w') = <[personID := applyEdit (person body) p]> (persons (db w))
    ∧ chiiRevHistory (db w') = (chiiRevHistory (db w) ++ [row])%list
    ∧ revMid row = personID
    ∧ revType row = personEdit
    ∧ revCreator row = userID auth
    ∧ revEditSummary row = commitMessage body.
Proof.
  unfold patchPersonInfo. destruct (negb (mono_edit auth)); [done|].
  unfold transaction. rewrite bind_run, PersonRepo_findOneBy_any.
  destruct (persons (db w) !! personID) as [p|] eqn:Hp; [|done].
  destruct (truthy (entity.lock p) || truthy (entity.redirect p)); [done|].
  rewrite bind_run. unfold liftResult at 1.
  destruct (matchExpected _ _) as [[]|]; [|done].
  rewrite bind_run, PersonRepo_save_run. cbv zeta. cbn [db log saveFails].
  destruct (saveFails w); [done|]. cbv beta iota.
  destruct (createRevision _ _) as [[[]|e] w2] eqn:Hc; [|done].
  intros Heq. simplify_eq.
  apply contract in Hc as (Hpersons & row & Hrows & ? & ? & ? & ?). cbn in *.
  exists p, row. by split_and!.
Qed.

(** A failed edit leaves the database as it was. *)
Lemma patch_err_db (auth : Auth) (body : PatchBody) (personID : Z) (w w' : World)
    (e : Error) :
  patchPersonInfo toStringBeyond createRevision auth body personID w = (Err e, w') →
  db w' = db w.
Proof.
  unfold patchPersonInfo. destruct (negb (mono_edit auth)).
  - by intros [= _ <-].
  - unfold transaction.
    destruct ((PersonRepo_findOneBy personID None ≫= _) w) as [[u|e'] w1]; [done|].
    by intros [= _ <-].
Qed.

(** The failures ahead of the write: each is reported after the one read
    of the person.  An unknown person id gives [NotFoundError] with the
    message ["person <id>"], the id written as the number it is. *)
Lemma patch_not_found (auth : Auth) (body : PatchBody) (personID : Z) (w : World) :
  mono_edit auth = true → persons (db w) !! personID = None →
  patchPersonInfo toStringBeyond createRevision auth body personID w
  = (Err (NotFoundError ("person " +:+ Number_toString toStringBeyond personID)),
     {| db := db w; log := log w ++ [DbSelect "person"]; saveFails := saveFails w |}).
Proof.
  intros Ha Hp. unfold patchPersonInfo, transaction. rewrite Ha. cbn [negb].
  by rewrite bind_run, PersonRepo_findOneBy_any, Hp.
Qed.

(** A locked person, or one that redirects to another, cannot be edited:
    [LockedError] after the one read, whatever was submitted. *)
Lemma patch_locked (auth : Auth) (body : PatchBody) (personID : Z) (w : World)
    (p : entity.Person) :
  mono_edit auth = true → persons (db w) !! personID = Some p →
  truthy (entity.lock p) || truthy (entity.redirect p) = true →
  patchPersonInfo toStringBeyond createRevision auth body personID w
  = (Err LockedError,
     {| db := db w; log := log w ++ [DbSelect "person"]; saveFails := saveFails w |}).
Proof.
  intros Ha Hp Hl. unfold patchPersonInfo, transaction. rewrite Ha. cbn [negb].
  by rewrite bind_run, PersonRepo_findOneBy_any, Hp, Hl.
Qed.

(** Whatever the expectation check throws is what the edit fails with,
    after the one read and before any write. *)
Lemma patch_conflict (auth : Auth) (body : PatchBody) (personID : Z) (w : World)
    (p : entity.Person) (e : Error) :
  mono_edit auth = true → persons (db w) !! personID = Some p →
  truthy (entity.lock p) || truthy (entity.redirect p) = false →
  matchExpected (expectedRevision body)
    {[ "name" := entity.name p; "infobox" := entity.infobox p;
       "summary" := entity.summary p ]} = Err e →
  patchPersonInfo toStringBeyond createRevision auth body personID w
  = (Err e,
     {| db := db w; log := log w ++ [DbSelect "person"]; saveFails := saveFails w |}).
Proof.
  intros Ha Hp Hl Hm. unfold patchPersonInfo, transaction. rewrite Ha. cbn [negb].
  rewrite bind_run, PersonRepo_findOneBy_any, Hp, Hl. cbv beta iota.
  rewrite bind_run. unfold liftResult at 1. by rewrite Hm.
Qed.

(** C3.  The edit is all or nothing.  When it fails, for whatever reason
    and at whatever step, the database, that is the stored person and the
    revision log, is as before.  When it succeeds, the person is stored
    with the edit applied and the log has exactly one more row, the
    revision of this edit. *)
Theorem patch_atomic (auth : Auth) (body : PatchBody) (personID : Z) (w : World) :
  match patchPersonInfo toStringBeyond createRevision auth body personID w with
  | (Err _, w') => db w' = db w
  | (Ok _, w') =>
      ∃ p row,
        persons (db w) !! personID = Some p
        ∧ persons (db w') = <[personID := applyEdit (person body) p]> (persons (db w))
        ∧ chiiRevHistory (db w') = (chiiRevHistory (db w) ++ [row])%list
        ∧ revMid row = personID
        ∧ revType row = personEdit
        ∧ revCreator row = userID auth
        ∧ revEditSummary row = commitMessage body
  end.
Proof.
  destruct (patchPersonInfo _ _ _ _ _) as [[[]|e] w'] eqn:Hrun.
  - by apply patch_ok_inv in Hrun.
  - by apply patch_err_db in Hrun.
Qed.

(** C10.  After a successful edit the stored person has, for each of
    [name], [infobox] and [summary], the submitted value when the input
    has the field and the previous value when it has not; its other
    columns and all other persons are as before. *)
Theorem patch_keeps_absent_fields
    (auth : Auth) (body : PatchBody) (personID : Z) (w w' : World) (u : unit)
    (p : entity.Person) :
  patchPersonInfo toStringBeyond createRevision auth body personID w = (Ok u, w') →
  persons (db w) !! personID = Some p →
  ∃ p',
    persons (db w') !! personID = Some p'
    ∧ (person body !! "name" = None → entity.name p' = entity.name p)
    ∧ (person body !! "infobox" = None → entity.infobox p' = entity.infobox p)
    ∧ (person body !! "summary" = None → entity.summary p' = entity.summary p)
    ∧ (∀ v, person body !! "name" = Some v → entity.name p' = v)
    ∧ (∀ v, person body !! "infobox" = Some v → entity.infobox p' = v)
    ∧ (∀ v, person body !! "summary" = Some v → entity.summary p' = v)
    ∧ entity.lock p' = entity.lock p
    ∧ entity.redirect p' = entity.redirect p
    ∧ entity.type p' = entity.type p
    ∧ entity.img p' = entity.img p
    ∧ ∀ other, other ≠ personID →
        persons (db w') !! other = persons (db w) !! other.
Proof.
  intros Hrun Hp.
  apply patch_ok_inv in Hrun as (p0 & row & Hp0 & Hpersons & _).
  rewrite Hp in Hp0. injection Hp0 as <-.
  exists (applyEdit (person body) p). rewrite Hpersons.
  split; [by rewrite lookup_insert_eq|].
  unfold applyEdit. cbn.
  split_and!; try done; try (by intros ->); try (by intros v ->).
  intros other Hne. by rewrite lookup_insert_ne.
Qed.

End EditProperties.

(** ** Which paths raise Locked or NotAllowed *)

Lemma history_never_locked (ghostUser : Z → SlimUser) (operationId summary idName : string)
    (revTypes : list RevType) (params : gmap string jsval) (query : Query) (w : World) :
  let r := (serve (createRelationHistoryRoute ghostUser operationId summary idName revTypes)
              params query w).1 in
  raises Locked r = false ∧ raises NotAllowed r = false.
Proof.
  unfold serve.
  destruct (negb (schema_params _ params)); [done|].
  destruct (negb (schema_querystring _ query)); [done|].
  destruct (params !! idName) as [v|] eqn:Hp; cycle 1.
  { rewrite handler_not_number; [done | by rewrite Hp]. }
  destruct v as [| ? | ? | q];
    try (rewrite handler_not_number; [done | by rewrite Hp]).
  by rewrite (handler_number _ _ _ _ _ _ _ _ q).
Qed.

Ltac detail_cases deserialize :=
  rewrite bind_run, selectRevision_run;
  destruct (take 1 _) as [| r ?]; [done|]; cbv beta iota;
  rewrite bind_run, selectRevText_run;
  destruct (filter _ _) as [| t ?]; [done|]; cbv beta iota;
  rewrite bind_run; unfold RevText_deserialize at 1; rewrite bind_run;
  cbn [emit fst snd]; cbv beta iota;
  destruct (deserialize (chiiRevText.revText t)) as [revRecord|]; [|done];
  cbv beta iota; unfold mret at 1, M_ret at 1;
  rewrite bind_run; unfold valuesOf at 1;
  destruct (revRecord !! _) as [revContent|]; [|done];
  unfold mret at 1, M_ret at 1; cbv beta iota;
  repeat (rewrite bind_run;
          first [ rewrite fetchSlimSubjectsByIDs_run
                | rewrite fetchSlimPersonsByIDs_run
                | rewrite fetchSlimCharactersByIDs_run ];
          cbv beta iota);
  done.

Lemma details_never_locked (toStringBeyond : Z → string)
    (deserialize : string → option RevRecord)
    (revisionID : Z) (w : World) :
  (raises Locked (getCharacterSubjectRevision toStringBeyond deserialize revisionID w).1
      = false
   ∧ raises NotAllowed (getCharacterSubjectRevision toStringBeyond deserialize revisionID w).1
       = false)
  ∧ (raises Locked (getCharacterPersonRevision toStringBeyond deserialize revisionID w).1
      = false
     ∧ raises NotAllowed (getCharacterPersonRevision toStringBeyond deserialize revisionID w).1
         = false)
  ∧ (raises Locked (getPersonSubjectRevision toStringBeyond deserialize revisionID w).1
      = false
     ∧ raises NotAllowed (getPersonSubjectRevision toStringBeyond deserialize revisionID w).1
         = false)
  ∧ (raises Locked (getPersonCharacterRevision toStringBeyond deserialize revisionID w).1
      = false
     ∧ raises NotAllowed (getPersonCharacterRevision toStringBeyond deserialize revisionID w).1
         = false).
Proof.
  unfold getCharacterSubjectRevision, getCharacterPersonRevision,
    getPersonSubjectRevision, getPersonCharacterRevision.
  split_and!; detail_cases deserialize.
Qed.

Lemma wiki_info_never_locked (toStringBeyond : Z → string) (personID : Z) (w : World) :
  raises Locked (getPersonWikiInfo toStringBeyond personID w).1 = false
  ∧ (raises NotAllowed (getPersonWikiInfo toStringBeyond personID w).1 = true
     ↔ ∃ p, persons (db w) !! personID = Some p
            ∧ entity.redirect p = 0 ∧ entity.lock p ≠ 0).
Proof.
  unfold getPersonWikiInfo. rewrite bind_run, PersonRepo_findOneBy_redirect0.
  cbv beta iota.
  destruct (persons (db w) !! personID) as [p|] eqn:Hp; cbn.
  - case_bool_decide as Hr; cbn.
    + unfold truthy. destruct (entity.lock p =? 0) eqn:Hl; cbn.
      * split; [done|]. split; [done|]. intros (p' & [= <-] & _ & Hne). lia.
      * split; [done|]. split; [|done]. intros _. exists p. split_and!; [done..|lia].
    + split; [done|]. split; [done|]. by intros (p' & [= <-] & ? & _).
  - split; [done|]. split; [done|]. by intros (p' & ? & _).
Qed.

(** C6, as the code has it.  The history query and the four
    revision-detail lookups never fail with a Locked or NotAllowed error.
    The current-wiki-info lookup never fails with Locked, and fails with
    NotAllowed exactly when the person it finds (a person that is not a
    redirect) is locked. *)
Theorem read_paths_locked_not_allowed :
  (∀ ghostUser operationId summary idName revTypes params query w,
     let r := (serve (createRelationHistoryRoute ghostUser operationId summary idName
                        revTypes) params query w).1 in
     raises Locked r = false ∧ raises NotAllowed r = false)
  ∧ (∀ toStringBeyond deserialize revisionID w,
       (raises Locked (getCharacterSubjectRevision toStringBeyond deserialize revisionID w).1
           = false
        ∧ raises NotAllowed (getCharacterSubjectRevision toStringBeyond deserialize revisionID w).1
            = false)
       ∧ (raises Locked (getCharacterPersonRevision toStringBeyond deserialize revisionID w).1
           = false
          ∧ raises NotAllowed (getCharacterPersonRevision toStringBeyond deserialize revisionID w).1
              = false)
       ∧ (raises Locked (getPersonSubjectRevision toStringBeyond deserialize revisionID w).1
           = false
          ∧ raises NotAllowed (getPersonSubjectRevision toStringBeyond deserialize revisionID w).1
              = false)
       ∧ (raises Locked (getPersonCharacterRevision toStringBeyond deserialize revisionID w).1
           = false
          ∧ raises NotAllowed
               (getPersonCharacterRevision toStringBeyond deserialize revisionID w).1
                   = false))
  ∧ (∀ toStringBeyond personID w,
       raises Locked (getPersonWikiInfo toStringBeyond personID w).1 = false
       ∧ (raises NotAllowed (getPersonWikiInfo toStringBeyond personID w).1 = true
          ↔ ∃ p, persons (db w) !! personID = Some p
                 ∧ entity.redirect p = 0 ∧ entity.lock p ≠ 0)).
Proof.
  split_and!.
  - intros. apply history_never_locked.
  - intros. apply details_never_locked.
  - intros. apply wiki_info_never_locked.
Qed.

(** C6 as stated fails: reading the wiki info of the locked person 2 is
    refused with [NotAllowedError]. *)
Lemma wiki_info_locked_not_allowed :
  (getPersonWikiInfo sample.toStringBeyond 2 sample.world).1
      = Err (NotAllowedError "edit a locked person")
  ∧ ¬ (raises Locked (getPersonWikiInfo sample.toStringBeyond 2 sample.world).1 = false
       ∧ raises NotAllowed (getPersonWikiInfo sample.toStringBeyond 2 sample.world).1
           = false).
Proof. split; [by vm_compute|]. by intros [_ H]; vm_compute in H. Qed.

(** ** The properties on the sample data *)

Lemma sample_primary_key : NoDup (revId <$> chiiRevHistory (db sample.world)).
Proof. apply (bool_decide_unpack _). by vm_compute. Qed.

(** Page of two from offset four, out of the five revisions of
    character 7. *)
Lemma history_total_and_length_witness :
  ∃ page w',
    serve (characterSubjectHistorySummary sample.ghostUser)
      {[ "characterID" := JNumber (inject_Z 7) ]}
      {| limit := Some 2; offset := Some 4 |} sample.world = (Ok page, w')
    ∧ res.total page = 5
    ∧ Z.of_nat (length (res.data page)) = 1
    ∧ (5 < 4 → res.data page = []).
Proof.
  apply (history_total_and_length sample.ghostUser
           "CharacterSubjectHistorySummary" "获取角色-条目关联历史编辑摘要"
           "characterID" [characterSubjectRelation]
           {[ "characterID" := JNumber (inject_Z 7) ]} sample.world (inject_Z 7) 7 2 4).
  - exact sample_primary_key.
  - reflexivity.
  - reflexivity.
  - lia.
  - lia.
  - lia.
Defined.

(** The scenario of the specification: limit 20, offset 0, five
    revisions. *)
Example history_five_revisions :
  (serve (characterSubjectHistorySummary sample.ghostUser)
     {[ "characterID" := JNumber (inject_Z 7) ]}
     {| limit := None; offset := None |} sample.world).1
  = Ok {| res.total := 5;
          res.data :=
            [ {| res.id := 17; res.creator := {| username := "bob" |};
                 res.createdAt := 1700000017; res.commitMessage := "edit 17" |};
              {| res.id := 16; res.creator := {| username := "alice" |};
                 res.createdAt := 1700000016; res.commitMessage := "edit 16" |};
              {| res.id := 15; res.creator := {| username := "ghost 99" |};
                 res.createdAt := 1700000015; res.commitMessage := "edit 15" |};
              {| res.id := 13; res.creator := {| username := "bob" |};
                 res.createdAt := 1700000013; res.commitMessage := "edit 13" |};
              {| res.id := 11; res.creator := {| username := "alice" |};
                 res.createdAt := 1700000011; res.commitMessage := "edit 11" |} ] |}.
Proof. by vm_compute. Qed.

(** Entries 16, 15, 13: the page of three after the newest revision. *)
Lemma history_strictly_descending_witness :
  ∃ page w',
    serve (characterSubjectHistorySummary sample.ghostUser)
      {[ "characterID" := JNumber (inject_Z 7) ]}
      {| limit := Some 3; offset := Some 1 |} sample.world = (Ok page, w')
    ∧ res.id <$> res.data page = [16; 15; 13]
    ∧ ∀ (i : nat) (a b : res.RelationHistory),
        res.data page !! i = Some a → res.data page !! S i = Some b →
        res.id a > res.id b.
Proof.
  eexists _, _. split; [by vm_compute|]. split; [by vm_compute|].
  eapply (history_strictly_descending sample.ghostUser
            "CharacterSubjectHistorySummary" "获取角色-条目关联历史编辑摘要"
            "characterID" [characterSubjectRelation]
            {[ "characterID" := JNumber (inject_Z 7) ]}
            {| limit := Some 3; offset := Some 1 |} sample.world).
  - exact sample_primary_key.
  - by vm_compute.
Defined.

Lemma history_rejects_invalid_target_witness :
  ∃ e,
    serve (characterSubjectHistorySummary sample.ghostUser)
      {[ "characterID" := JNumber (inject_Z 0) ]}
      {| limit := None; offset := None |} sample.world = (Err e, sample.world)
    ∧ kindOf e = InvalidArgument.
Proof.
  apply (history_rejects_invalid_target sample.ghostUser
           "CharacterSubjectHistorySummary" "获取角色-条目关联历史编辑摘要"
           "characterID" [characterSubjectRelation]).
  intros (q & z & Hp & Hq & Hz).
  rewrite lookup_singleton_eq in Hp. injection Hp as <-.
  apply (proj1 (inject_Z_injective 0 z)) in Hq. lia.
Defined.

(** A string is refused as well. *)
Example history_rejects_string :
  serve (characterSubjectHistorySummary sample.ghostUser)
    {[ "characterID" := JString "abc" ]}
    {| limit := None; offset := None |} sample.world
  = (Err (ValidationError "params"), sample.world).
Proof. by vm_compute. Qed.

(** Revision 15 was made by editor 99, who has no user record. *)
Lemma history_ghost_user_witness :
  let params : gmap string jsval := {[ "characterID" := JNumber (inject_Z 7) ]} in
  let query := {| limit := None; offset := None |} in
  let rows := historyRows (db sample.world) (inject_Z 7) [characterSubjectRelation] 0 20 in
  let fetched := byIDs (users (db sample.world)) (revCreator <$> rows) in
  (rows !! 2%nat = Some (sample.mkRev 15 characterSubjectRelation 7 99)
   ∧ fetched !! 99 = None)
  ∧ ∃ page w',
      handler (characterSubjectHistorySummary sample.ghostUser) params query sample.world
      = (Ok page, w')
      ∧ length (res.data page) = length rows
      ∧ ∀ (i : nat) (x : RevHistory),
          rows !! i = Some x → fetched !! revCreator x = None →
          ∃ e, res.data page !! i = Some e
               ∧ res.id e = revId x
               ∧ username (res.creator e) = username (sample.ghostUser (revCreator x)).
Proof.
  intros params query rows fetched. split; [by vm_compute|].
  apply (history_ghost_user sample.ghostUser
           "CharacterSubjectHistorySummary" "获取角色-条目关联历史编辑摘要"
           "characterID" [characterSubjectRelation] params query sample.world (inject_Z 7)).
  reflexivity.
Defined.

Lemma sample_no_revision_500 :
  ∀ r, r ∈ chiiRevHistory (db sample.world) → revId r ≠ 500.
Proof.
  apply Forall_forall. apply (bool_decide_unpack _). by vm_compute.
Qed.

(** The scenario of the specification: revision 500 does not exist. *)
Lemma revision_detail_not_found_witness :
  let e := NotFoundError "revision 500" in
  let w' := {| db := sample.database; log := [DbSelect "chiiRevHistory"];
               saveFails := false |} in
  kindOf e = NotFound
  ∧ getCharacterSubjectRevision sample.toStringBeyond sample.deserialize 500
      sample.world = (Err e, w')
  ∧ getCharacterPersonRevision sample.toStringBeyond sample.deserialize 500
      sample.world = (Err e, w')
  ∧ getPersonSubjectRevision sample.toStringBeyond sample.deserialize 500
      sample.world = (Err e, w')
  ∧ getPersonCharacterRevision sample.toStringBeyond sample.deserialize 500
      sample.world = (Err e, w')
  ∧ (isSafeInteger 500 = true → e = NotFoundError ("revision " +:+ pretty 500)).
Proof.
  exact (revision_detail_not_found sample.toStringBeyond sample.deserialize 500
           sample.world sample_no_revision_500).
Defined.

(** Beyond the safe range the id is written as the number is: at 10^21,
    with an exponent. *)
Example revision_detail_not_found_exponent :
  (getCharacterSubjectRevision sample.toStringBeyond sample.deserialize (10 ^ 21)
     sample.world).1
  = Err (NotFoundError "revision 1e+21")
  ∧ (getPersonWikiInfo sample.toStringBeyond (10 ^ 21) sample.world).1
    = Err (NotFoundError "person 1e+21")
  ∧ (patchPersonInfo sample.toStringBeyond sample.createRevision sample.auth
       sample.body (10 ^ 21) sample.world).1
    = Err (NotFoundError "person 1e+21").
Proof. by vm_compute. Qed.

(** Revision 11 relates subject 100, which has a name, and subject 200,
    which has none. *)
Lemma revision_detail_missing_names_witness :
  ∃ out w',
    getCharacterSubjectRevision sample.toStringBeyond sample.deserialize 11 sample.world
        = (Ok out, w')
    ∧ length out = 2%nat
    ∧ ∀ (i : nat) (x : RevItem),
        [sample.mkItem 100 3; sample.mkItem 200 4] !! i = Some x →
        ∃ o, out !! i = Some o
             ∧ CharacterSubjectRelationWiki.subjectId o = subject_id x
             ∧ CharacterSubjectRelationWiki.characterType o = crt_type x
             ∧ (byIDs (subjects sample.database) [100; 200] !! subject_id x = None →
                CharacterSubjectRelationWiki.subjectName o = "").
Proof.
  apply (revision_detail_missing_names sample.toStringBeyond sample.deserialize 11
      sample.world
           (sample.mkRev 11 characterSubjectRelation 7 1) []
           {| chiiRevText.revTextId := 11; chiiRevText.revText := "blob 11" |} []
           {[ 11 := [ ("0", sample.mkItem 100 3); ("1", sample.mkItem 200 4) ] ]}
           [ ("0", sample.mkItem 100 3); ("1", sample.mkItem 200 4) ]).
  - by vm_compute.
  - by vm_compute.
  - by vm_compute.
  - by vm_compute.
Defined.

Example revision_detail_sample :
  (getCharacterPersonRevision sample.toStringBeyond sample.deserialize 11 sample.world).1
  = Ok [ {| CharacterPersonRelationWiki.subjectName := "Subject 100";
            CharacterPersonRelationWiki.subjectId := 100;
            CharacterPersonRelationWiki.personName := "";
            CharacterPersonRelationWiki.personId := 3 |};
         {| CharacterPersonRelationWiki.subjectName := "";
            CharacterPersonRelationWiki.subjectId := 200;
            CharacterPersonRelationWiki.personName := "";
            CharacterPersonRelationWiki.personId := 4 |} ].
Proof. by vm_compute. Qed.

(** The sample [createRevision] keeps the contract. *)
Lemma sample_createRevision_contract : createRevisionContract sample.createRevision.
Proof.
  intros inp [d l [|]] w' u Hrun; [by cbv in Hrun|].
  assert (Hw : w' = (sample.createRevision inp
                       {| db := d; log := l; saveFails := false |}).2)
    by by rewrite Hrun.
  rewrite Hw. cbn. split; [done|]. eexists. by split_and!.
Qed.

Lemma patch_atomic_witness :
  match patchPersonInfo sample.toStringBeyond sample.createRevision sample.auth sample.body 1
      sample.world with
  | (Err _, w') => db w' = sample.database
  | (Ok _, w') =>
      ∃ p row,
        persons sample.database !! 1 = Some p
        ∧ persons (db w')
            = <[1 := applyEdit {[ "name" := "B" ]} p]> (persons sample.database)
        ∧ chiiRevHistory (db w') = (chiiRevHistory sample.database ++ [row])%list
        ∧ revMid row = 1
        ∧ revType row = personEdit
        ∧ revCreator row = 1
        ∧ revEditSummary row = "rename"
  end.
Proof.
  exact (patch_atomic sample.toStringBeyond sample.createRevision sample_createRevision_contract
           sample.auth sample.body 1 sample.world).
Defined.

Lemma patch_keeps_absent_fields_witness :
  let p := sample.mkPerson "A" 0 in
  let w' := (patchPersonInfo sample.toStringBeyond sample.createRevision sample.auth sample.body 1
               sample.world).2 in
  ∃ p',
    persons (db w') !! 1 = Some p'
    ∧ (person sample.body !! "name" = None → entity.name p' = entity.name p)
    ∧ (person sample.body !! "infobox" = None → entity.infobox p' = entity.infobox p)
    ∧ (person sample.body !! "summary" = None → entity.summary p' = entity.summary p)
    ∧ (∀ v, person sample.body !! "name" = Some v → entity.name p' = v)
    ∧ (∀ v, person sample.body !! "infobox" = Some v → entity.infobox p' = v)
    ∧ (∀ v, person sample.body !! "summary" = Some v → entity.summary p' = v)
    ∧ entity.lock p' = entity.lock p
    ∧ entity.redirect p' = entity.redirect p
    ∧ entity.type p' = entity.type p
    ∧ entity.img p' = entity.img p
    ∧ ∀ other, other ≠ 1 →
        persons (db w') !! other = persons (db sample.world) !! other.
Proof.
  intros p w'.
  apply (patch_keeps_absent_fields sample.toStringBeyond sample.createRevision sample_createRevision_contract
           sample.auth sample.body 1 sample.world w' () p).
  - by vm_compute.
  - by vm_compute.
Defined.


(** The edit on the sample data: person 1 is renamed and revision 18 is
    logged. *)
Example patch_sample :
  let w' := (patchPersonInfo sample.toStringBeyond sample.createRevision sample.auth sample.body 1
               sample.world).2 in
  persons (db w') !! 1 = Some (sample.mkPerson "B" 0)
  ∧ last (chiiRevHistory (db w'))
    = Some {| revId := 18; revType := personEdit; revMid := 1; revTextId := 0;
              createdAt := 0; revCreator := 1; revEditSummary := "rename" |}
  ∧ log w' = [DbSelect "person"; DbWrite "person"; DbWrite "chiiRevHistory"].
Proof. by vm_compute. Qed.

(** When recording the revision throws after the person was saved, both
    writes are undone: the database is the one before the edit. *)
Example patch_rolls_back :
  patchPersonInfo sample.toStringBeyond sample.brokenCreateRevision sample.auth sample.body 1
      sample.world
  = (Err StorageError,
     {| db := sample.database;
        log := [DbSelect "person"; DbWrite "person"; DbWrite "chiiRevHistory"];
        saveFails := false |}).
Proof. by vm_compute. Qed.

(** An edit whose expected name is stale is refused before any write. *)
Example patch_stale :
  patchPersonInfo sample.toStringBeyond sample.createRevision sample.auth
    {| commitMessage := "rename";
       expectedRevision := {[ "name" := "Z" ]};
       person := {[ "name" := "B" ]} |} 1 sample.world
  = (Err (WikiChangedError (readableDiff "name" "Z" "A")),
     {| db := sample.database; log := [DbSelect "person"]; saveFails := false |}).
Proof. by vm_compute. Qed.

(** The locked person 2 cannot be edited. *)
Example patch_locked_sample :
  patchPersonInfo sample.toStringBeyond sample.createRevision sample.auth sample.body 2
      sample.world
  = (Err LockedError,
     {| db := sample.database; log := [DbSelect "person"]; saveFails := false |}).
Proof. by vm_compute. Qed.

(** * Further properties *)

(** ** The history route *)

Lemma byIDs_lookup {V} (store : gmap Z V) (ids : list Z) (k : Z) :
  byIDs store ids !! k = if decide (k ∈ ids) then store !! k else None.
Proof.
  unfold byIDs. rewrite map_lookup_filter.
  destruct (store !! k) as [v|]; simpl; [|by destruct (decide _)].
  destruct (decide (k ∈ ids)).
  - by rewrite option_guard_True.
  - by rewrite option_guard_False.
Qed.

(** Restricting the users to the editors of the page does not change
    what a row of the page is turned into. *)
Lemma summaries_byIDs (ghostUser : Z → SlimUser) (users : gmap Z SlimUser)
    (rows : list RevHistory) :
  toSummary ghostUser (byIDs users (revCreator <$> rows)) <$> rows
  = toSummary ghostUser users <$> rows.
Proof.
  apply list_fmap_ext. intros i x Hx. unfold toSummary.
  rewrite byIDs_lookup, decide_True; [done|].
  apply list_elem_of_fmap_2, list_elem_of_lookup. by exists i.
Qed.

Section HistoryFurther.

Variable ghostUser : Z → SlimUser.
Variables (operationId summary idName : string) (revTypes : list RevType).

Let route := createRelationHistoryRoute ghostUser operationId summary idName revTypes.

(** A served answer, taken apart: the request passed both schemas, and
    the page is the count and the summaries of the rows. *)
Lemma serve_ok_inv (params : gmap string jsval) (query : Query) (w w' : World)
    (page : res.Paged res.RelationHistory) :
  serve route params query w = (Ok page, w') →
  schema_querystring route query = true
  ∧ db w' = db w
  ∧ ∃ q z,
      params !! idName = Some (JNumber q) ∧ (q == inject_Z z)%Q ∧ 0 < z
      ∧ res.total page = countDistinct (db w) q revTypes
      ∧ res.data page
        = toSummary ghostUser (users (db w))
            <$> historyRows (db w) q revTypes
                  (default 0 (offset query)) (default 20 (limit query)).
Proof.
  unfold serve, route.
  destruct (schema_params _ params) eqn:Hs; [|done].
  destruct (schema_querystring _ query) eqn:Hq; [|done].
  cbn [negb]. intros Hrun. split; [done|].
  cbn [schema_params createRelationHistoryRoute] in Hs.
  destruct (params !! idName) as [v|] eqn:Hp; [|done]. cbn [from_option] in Hs.
  apply t_Integer_min1 in Hs as (q & z & -> & Hz & Hpos).
  rewrite (handler_number _ _ _ _ _ _ _ _ q) in Hrun by done.
  injection Hrun as <- <-. split; [done|].
  exists q, z. split_and!; [done..|]. cbn. apply summaries_byIDs.
Qed.

(** No served page is longer than the limit asked for, than the default
    of 20 when none is given, or than 100. *)
Theorem history_page_bound (params : gmap string jsval) (query : Query) (w w' : World)
    (page : res.Paged res.RelationHistory) :
  serve route params query w = (Ok page, w') →
  Z.of_nat (length (res.data page)) ≤ default 20 (limit query)
  ∧ (length (res.data page) ≤ 100)%nat.
Proof.
  intros Hrun. apply serve_ok_inv in Hrun as (Hq & _ & q & z & _ & _ & _ & _ & ->).
  rewrite length_fmap, historyRows_length.
  unfold route in Hq. cbn [schema_querystring createRelationHistoryRoute] in Hq.
  apply andb_true_iff in Hq as [Hl _].
  destruct (limit query) as [l|]; cbn in *; [|lia].
  apply bool_decide_eq_true in Hl. lia.
Qed.

(** A limit outside 1..100 or a negative offset is refused as an invalid
    argument before any query is made. *)
Theorem history_rejects_invalid_page (params : gmap string jsval) (query : Query)
    (w : World) :
  (∃ l, limit query = Some l ∧ (l < 1 ∨ 100 < l)) ∨ (∃ o, offset query = Some o ∧ o < 0) →
  ∃ e, serve route params query w = (Err e, w) ∧ kindOf e = InvalidArgument.
Proof.
  intros Hbad. unfold serve.
  destruct (negb (schema_params route params)); [by eexists|].
  assert (schema_querystring route query = false) as ->; [|by eexists].
  unfold route. cbn [schema_querystring createRelationHistoryRoute].
  apply andb_false_iff.
  destruct Hbad as [(l & -> & Hl) | (o & -> & Ho)]; [left | right]; cbn;
    apply bool_decide_eq_false; lia.
Qed.

(** Every entry of a served page is a revision of the requested target
    with one of the route's revision types, and carries that revision's
    id, time and edit summary. *)
Theorem history_entries_sound (params : gmap string jsval) (query : Query) (w w' : World)
    (page : res.Paged res.RelationHistory) (e : res.RelationHistory) (q : Q) (z : Z) :
  serve route params query w = (Ok page, w') →
  params !! idName = Some (JNumber q) → (q == inject_Z z)%Q →
  e ∈ res.data page →
  ∃ x,
    x ∈ chiiRevHistory (db w)
    ∧ revMid x = z ∧ revType x ∈ revTypes
    ∧ res.id e = revId x
    ∧ res.createdAt e = createdAt x
    ∧ res.commitMessage e = revEditSummary x.
Proof.
  intros Hrun Hp Hq He.
  apply serve_ok_inv in Hrun as (_ & _ & q' & z' & Hp' & _ & _ & _ & Hdata).
  rewrite Hp in Hp'. injection Hp' as <-.
  rewrite Hdata in He. apply list_elem_of_fmap in He as (x & -> & Hx).
  exists x. unfold historyRows in Hx.
  apply subseteq_take, subseteq_drop in Hx.
  rewrite merge_sort_Permutation, (filter_matching_integer q z) in Hx by done.
  apply list_elem_of_filter in Hx as [[Hmid Hty] Hx]. by split_and!.
Qed.

(** An editor with a user record is shown under that record's username. *)
Theorem history_known_user (params : gmap string jsval) (query : Query) (w w' : World)
    (page : res.Paged res.RelationHistory) (i : nat) (e : res.RelationHistory) :
  serve route params query w = (Ok page, w') →
  res.data page !! i = Some e →
  ∃ x,
    x ∈ chiiRevHistory (db w) ∧ res.id e = revId x
    ∧ ∀ u, users (db w) !! revCreator x = Some u →
           username (res.creator e) = username u.
Proof.
  intros Hrun He.
  apply serve_ok_inv in Hrun as (_ & _ & q & z & _ & _ & _ & _ & Hdata).
  rewrite Hdata, list_lookup_fmap in He.
  destruct (historyRows _ _ _ _ _ !! i) as [x|] eqn:Hx; [|done].
  injection He as <-. exists x. split_and!; [|done|].
  - apply list_elem_of_lookup_2 in Hx. unfold historyRows in Hx.
    apply subseteq_take, subseteq_drop in Hx.
    rewrite merge_sort_Permutation in Hx.
    eapply sublist_subseteq; [apply filter_bool_sublist | exact Hx].
  - intros u Hu. cbn. by rewrite Hu.
Qed.

(** Whatever the table holds, also rows that share a revision id, the ids
    of a served page never increase. *)
Theorem history_non_increasing (params : gmap string jsval) (query : Query) (w w' : World)
    (page : res.Paged res.RelationHistory) (i j : nat) (a b : res.RelationHistory) :
  serve route params query w = (Ok page, w') →
  (i < j)%nat →
  res.data page !! i = Some a → res.data page !! j = Some b →
  res.id b ≤ res.id a.
Proof.
  intros Hrun Hij Ha Hb.
  apply serve_ok_inv in Hrun as (_ & _ & q & z & _ & _ & _ & _ & Hdata).
  rewrite Hdata, list_lookup_fmap in Ha, Hb. unfold historyRows in Ha, Hb.
  destruct (take _ _ !! i) as [x|] eqn:Hx; [|done].
  destruct (take _ _ !! j) as [y|] eqn:Hy; [|done].
  injection Ha as <-. injection Hb as <-. cbn.
  apply lookup_take_Some in Hx as [Hx _]. apply lookup_take_Some in Hy as [Hy _].
  rewrite lookup_drop in Hx, Hy.
  eapply (StronglySorted_lookup_lt desc_revId _
            (Z.to_nat (default 0 (offset query)) + i)
            (Z.to_nat (default 0 (offset query)) + j) x y);
    [apply StronglySorted_merge_sort; apply _ | lia | done..].
Qed.

End HistoryFurther.

Lemma historyRows_tile (d : Database) (q : Q) (revTypes : list RevType) (o l1 l2 : Z) :
  0 ≤ o → 0 ≤ l1 → 0 ≤ l2 →
  (historyRows d q revTypes o l1 ++ historyRows d q revTypes (o + l1) l2)%list
  = historyRows d q revTypes o (l1 + l2).
Proof.
  intros Ho Hl1 Hl2. unfold historyRows.
  rewrite !Z2Nat.inj_add by lia.
  by rewrite <- drop_drop, take_take_drop.
Qed.

Section HistoryPaging.

Variable ghostUser : Z → SlimUser.
Variables (operationId summary idName : string) (revTypes : list RevType).

Let route := createRelationHistoryRoute ghostUser operationId summary idName revTypes.

(** What is served for a valid id and page. *)
Lemma serve_page (params : gmap string jsval) (w : World) (q : Q) (z l o : Z) :
  params !! idName = Some (JNumber q) → (q == inject_Z z)%Q → 0 < z →
  1 ≤ l ≤ 100 → 0 ≤ o →
  (serve route params {| limit := Some l; offset := Some o |} w).1
  = Ok {| res.total := countDistinct (db w) q revTypes;
          res.data := toSummary ghostUser (users (db w))
                        <$> historyRows (db w) q revTypes o l |}.
Proof.
  intros Hp Hq Hz Hl Ho. unfold route. rewrite serve_valid; cycle 1.
  { cbn [schema_params createRelationHistoryRoute]. rewrite Hp.
    cbn [from_option]. apply t_Integer_min1. by exists q, z. }
  { cbn. by rewrite !bool_decide_eq_true_2 by lia. }
  rewrite (handler_number _ _ _ _ _ _ _ _ q) by done. cbn.
  by rewrite summaries_byIDs.
Qed.

(** Consecutive pages tile the history: the page of [l1] entries at
    [offset] followed by the page of [l2] entries at [offset + l1] is the
    page of [l1 + l2] entries at [offset], with the same total on all
    three.  The revision ids are the primary key, so that the order of the
    rows is fixed by [orderBy]. *)
Theorem history_pages_tile (params : gmap string jsval) (w : World) (q : Q)
    (z l1 l2 o : Z) :
  NoDup (revId <$> chiiRevHistory (db w)) →
  params !! idName = Some (JNumber q) → (q == inject_Z z)%Q → 0 < z →
  1 ≤ l1 → 1 ≤ l2 → l1 + l2 ≤ 100 → 0 ≤ o →
  ∃ p1 p2 p12,
    (serve route params {| limit := Some l1; offset := Some o |} w).1 = Ok p1
    ∧ (serve route params {| limit := Some l2; offset := Some (o + l1) |} w).1 = Ok p2
    ∧ (serve route params {| limit := Some (l1 + l2); offset := Some o |} w).1 = Ok p12
    ∧ (res.data p1 ++ res.data p2)%list = res.data p12
    ∧ res.total p1 = res.total p12 ∧ res.total p2 = res.total p12.
Proof.
  intros _ Hp Hq Hz Hl1 Hl2 Hl Ho.
  eexists _, _, _. split_and!.
  - apply (serve_page _ _ q z); [done..|lia|lia].
  - apply (serve_page _ _ q z); [done..|lia|lia].
  - apply (serve_page _ _ q z); [done..|lia|lia].
  - cbn. rewrite <- fmap_app. by rewrite historyRows_tile by lia.
  - done.
  - done.
Qed.

(** A target without any matching revision is not an error: the answer
    is a total of 0 and an empty page. *)
Theorem history_unknown_target (params : gmap string jsval) (query : Query) (w : World)
    (q : Q) (z : Z) :
  params !! idName = Some (JNumber q) → (q == inject_Z z)%Q → 0 < z →
  schema_querystring route query = true →
  (∀ x, x ∈ chiiRevHistory (db w) → revMid x = z → revType x ∉ revTypes) →
  (serve route params query w).1 = Ok {| res.total := 0; res.data := [] |}.
Proof.
  intros Hp Hq Hz Hquery Hnone. unfold route in *. rewrite serve_valid; cycle 1.
  { cbn [schema_params createRelationHistoryRoute]. rewrite Hp.
    cbn [from_option]. apply t_Integer_min1. by exists q, z. }
  { done. }
  rewrite (handler_number _ _ _ _ _ _ _ _ q) by done. cbn.
  unfold countDistinct, historyRows.
  assert (List.filter (matching q revTypes) (chiiRevHistory (db w)) = []) as ->.
  2:{ change (merge_sort desc_revId []) with (@nil RevHistory).
      by rewrite drop_nil, take_nil. }
  rewrite (filter_matching_integer q z) by done.
  induction (chiiRevHistory (db w)) as [| x rows IH]; [done|].
  rewrite filter_cons_False.
  - apply IH. intros y Hy. apply Hnone. by right.
  - intros [Hmid Hty]. by apply (Hnone x); [left|..].
Qed.

End HistoryPaging.

(** ** Reads do not write *)

Lemma history_keeps_database (ghostUser : Z → SlimUser) (operationId summary idName : string)
    (revTypes : list RevType) (params : gmap string jsval) (query : Query) (w : World) :
  db (serve (createRelationHistoryRoute ghostUser operationId summary idName revTypes)
        params query w).2 = db w.
Proof.
  unfold serve.
  destruct (negb (schema_params _ params)); [done|].
  destruct (negb (schema_querystring _ query)); [done|].
  destruct (params !! idName) as [v|] eqn:Hp; cycle 1.
  { rewrite handler_not_number; [done | by rewrite Hp]. }
  destruct v as [| ? | ? | q];
    try (rewrite handler_not_number; [done | by rewrite Hp]).
  by rewrite (handler_number _ _ _ _ _ _ _ _ q).
Qed.

(** Whatever they answer, the history query, the four revision-detail
    lookups and the wiki-info lookup leave the database as it was. *)
Theorem reads_keep_database :
  (∀ ghostUser operationId summary idName revTypes params query w,
     db (serve (createRelationHistoryRoute ghostUser operationId summary idName revTypes)
           params query w).2 = db w)
  ∧ (∀ toStringBeyond deserialize revisionID w,
       db (getCharacterSubjectRevision toStringBeyond deserialize revisionID w).2 = db w
       ∧ db (getCharacterPersonRevision toStringBeyond deserialize revisionID w).2 = db w
       ∧ db (getPersonSubjectRevision toStringBeyond deserialize revisionID w).2 = db w
       ∧ db (getPersonCharacterRevision toStringBeyond deserialize revisionID w).2 = db w)
  ∧ (∀ toStringBeyond personID w, db (getPersonWikiInfo toStringBeyond personID w).2
      = db w).
Proof.
  split_and!.
  - intros. apply history_keeps_database.
  - intros toStringBeyond deserialize revisionID w.
    unfold getCharacterSubjectRevision, getCharacterPersonRevision,
      getPersonSubjectRevision, getPersonCharacterRevision.
    split_and!; detail_cases deserialize.
  - intros toStringBeyond personID w. unfold getPersonWikiInfo.
    rewrite bind_run, PersonRepo_findOneBy_redirect0. cbv beta iota.
    destruct (persons (db w) !! personID) as [p|]; cbn; [|done].
    case_bool_decide; cbn; [|done]. by destruct (truthy (entity.lock p)).
Qed.

(** ** Revision details *)

Section DetailFurther.

Variable toStringBeyond : Z → string.
Variable deserialize : string → option RevRecord.

(** A revision whose blob row is missing: each lookup throws
    [NotFoundError] naming the text id, after the two selects and without
    calling the deserializer. *)
Theorem revision_detail_blob_missing (revisionID : Z) (w : World) (r : RevHistory)
    (rs : list RevHistory) :
  filter (λ r, revId r = revisionID) (chiiRevHistory (db w)) = r :: rs →
  filter (λ t, chiiRevText.revTextId t = revTextId r) (chiiRevTextRows (db w)) = [] →
  let e := NotFoundError ("RevText " +:+ pretty (revTextId r)) in
  let w' := {| db := db w;
               log := log w ++ [DbSelect "chiiRevHistory"; DbSelect "chiiRevText"];
               saveFails := saveFails w |} in
  getCharacterSubjectRevision toStringBeyond deserialize revisionID w = (Err e, w')
  ∧ getCharacterPersonRevision toStringBeyond deserialize revisionID w = (Err e, w')
  ∧ getPersonSubjectRevision toStringBeyond deserialize revisionID w = (Err e, w')
  ∧ getPersonCharacterRevision toStringBeyond deserialize revisionID w = (Err e, w').
Proof.
  intros H1 H2 e w'.
  unfold getCharacterSubjectRevision, getCharacterPersonRevision,
    getPersonSubjectRevision, getPersonCharacterRevision.
  split_and!;
    rewrite bind_run, selectRevision_run, H1; cbn [take]; cbv beta iota;
    rewrite bind_run, selectRevText_run; cbn [db log saveFails]; rewrite H2;
    cbv beta iota; unfold throw, w'; by rewrite <- app_assoc.
Qed.

(** A decoded blob without an entry for the revision: each lookup fails
    with the [TypeError] of [Object.values(undefined)], before any name is
    fetched. *)
Theorem revision_detail_entry_missing (revisionID : Z) (w : World) (r : RevHistory)
    (rs : list RevHistory) (t : chiiRevText.row) (ts : list chiiRevText.row)
    (revRecord : RevRecord) :
  filter (λ r, revId r = revisionID) (chiiRevHistory (db w)) = r :: rs →
  filter (λ t, chiiRevText.revTextId t = revTextId r) (chiiRevTextRows (db w)) = t :: ts →
  deserialize (chiiRevText.revText t) = Some revRecord →
  revRecord !! revisionID = None →
  let e := TypeError "Cannot convert undefined or null to object" in
  let w' := {| db := db w;
               log := log w ++ [DbSelect "chiiRevHistory"; DbSelect "chiiRevText";
                                Call "RevText.deserialize"];
               saveFails := saveFails w |} in
  getCharacterSubjectRevision toStringBeyond deserialize revisionID w = (Err e, w')
  ∧ getCharacterPersonRevision toStringBeyond deserialize revisionID w = (Err e, w')
  ∧ getPersonSubjectRevision toStringBeyond deserialize revisionID w = (Err e, w')
  ∧ getPersonCharacterRevision toStringBeyond deserialize revisionID w = (Err e, w').
Proof.
  intros H1 H2 H3 H4 e w'.
  unfold getCharacterSubjectRevision, getCharacterPersonRevision,
    getPersonSubjectRevision, getPersonCharacterRevision.
  split_and!;
    rewrite bind_run, selectRevision_run, H1; cbn [take]; cbv beta iota;
    rewrite bind_run, selectRevText_run; cbn [db log saveFails]; rewrite H2;
    cbv beta iota;
    rewrite bind_run, (RevText_deserialize_run _ _ _ _ H3); cbv beta iota;
    rewrite bind_run; unfold valuesOf at 1; rewrite H4;
    unfold throw, w'; cbn [db log saveFails]; by rewrite <- !app_assoc.
Qed.

Lemma orEmpty_Some (s : string) : orEmpty (Some s) = s.
Proof. unfold orEmpty. by destruct (decide (s = "")) as [->|]. Qed.

(** The name fetched for an id that was asked for is the stored one. *)
Lemma fetched_name {A} (store : gmap Z Slim) (f : A → Z) (values : list A) (i : nat)
    (x : A) (s : Slim) :
  values !! i = Some x → store !! f x = Some s →
  orEmpty (name <$> byIDs store (f <$> values) !! f x) = name s.
Proof.
  intros Hx Hs. rewrite byIDs_lookup, decide_True, Hs; [apply orEmpty_Some|].
  apply list_elem_of_fmap_2, list_elem_of_lookup. by exists i.
Qed.

Ltac run_found H1 H2 H3 H4 :=
  rewrite bind_run, selectRevision_run, H1; cbn [take]; cbv beta iota;
  rewrite bind_run, selectRevText_run; cbn [db]; rewrite H2; cbv beta iota;
  rewrite bind_run, (RevText_deserialize_run _ _ _ _ H3); cbv beta iota;
  rewrite bind_run, (valuesOf_run _ _ _ _ H4); cbv beta iota;
  repeat (rewrite bind_run;
          first [ rewrite fetchSlimSubjectsByIDs_run
                | rewrite fetchSlimPersonsByIDs_run
                | rewrite fetchSlimCharactersByIDs_run ];
          cbv beta iota; cbn [db]).

Ltac known_names values Hx :=
  eexists _, _; split; [done|];
  intros i x Hx; eexists; rewrite list_lookup_fmap; fold values; rewrite Hx;
  split; [done|]; cbn; fold values.

(** Once the blob of an existing revision is decoded and holds an entry
    for it, every fact whose subject, person or character is in the store
    is returned under the stored name. *)
Theorem revision_detail_known_names
    (revisionID : Z) (w : World) (r : RevHistory) (rs : list RevHistory)
    (t : chiiRevText.row) (ts : list chiiRevText.row)
    (revRecord : RevRecord) (revContent : RevContent) :
  filter (λ r, revId r = revisionID) (chiiRevHistory (db w)) = r :: rs →
  filter (λ t, chiiRevText.revTextId t = revTextId r) (chiiRevTextRows (db w)) = t :: ts →
  deserialize (chiiRevText.revText t) = Some revRecord →
  revRecord !! revisionID = Some revContent →
  let values := Object_values revContent in
  (∃ out w',
     getCharacterSubjectRevision toStringBeyond deserialize revisionID w = (Ok out, w')
     ∧ ∀ (i : nat) (x : RevItem), values !! i = Some x →
         ∃ o, out !! i = Some o
              ∧ ∀ s, subjects (db w) !! subject_id x = Some s →
                     CharacterSubjectRelationWiki.subjectName o = name s)
  ∧ (∃ out w',
     getCharacterPersonRevision toStringBeyond deserialize revisionID w = (Ok out, w')
     ∧ ∀ (i : nat) (x : RevItem), values !! i = Some x →
         ∃ o, out !! i = Some o
              ∧ (∀ s, subjects (db w) !! subject_id x = Some s →
                      CharacterPersonRelationWiki.subjectName o = name s)
              ∧ (∀ p, persons (db w) !! prsn_id x = Some p →
                      CharacterPersonRelationWiki.personName o = entity.name p))
  ∧ (∃ out w',
     getPersonSubjectRevision toStringBeyond deserialize revisionID w = (Ok out, w')
     ∧ ∀ (i : nat) (x : RevItem), values !! i = Some x →
         ∃ o, out !! i = Some o
              ∧ ∀ s, subjects (db w) !! subject_id x = Some s →
                     PersonSubjectRelationWiki.subjectName o = name s)
  ∧ (∃ out w',
     getPersonCharacterRevision toStringBeyond deserialize revisionID w = (Ok out, w')
     ∧ ∀ (i : nat) (x : RevItem), values !! i = Some x →
         ∃ o, out !! i = Some o
              ∧ (∀ s, subjects (db w) !! subject_id x = Some s →
                      PersonCharacterRelationWiki.subjectName o = name s)
              ∧ (∀ c, characters (db w) !! crt_id x = Some c →
                      PersonCharacterRelationWiki.characterName o = name c)).
Proof.
  intros H1 H2 H3 H4 values.
  split_and!.
  - unfold getCharacterSubjectRevision. run_found H1 H2 H3 H4.
    known_names values Hx.
    intros s Hs. by apply (fetched_name _ _ _ i).
  - unfold getCharacterPersonRevision. run_found H1 H2 H3 H4.
    known_names values Hx. split.
    + intros s Hs. by apply (fetched_name _ _ _ i).
    + intros p Hp.
      apply (fetched_name _ prsn_id _ i x {| name := entity.name p |}); [done|].
      by rewrite lookup_fmap, Hp.
  - unfold getPersonSubjectRevision. run_found H1 H2 H3 H4.
    known_names values Hx.
    intros s Hs. by apply (fetched_name _ _ _ i).
  - unfold getPersonCharacterRevision. run_found H1 H2 H3 H4.
    known_names values Hx. split.
    + intros s Hs. by apply (fetched_name _ _ _ i).
    + intros c Hc. by apply (fetched_name _ _ _ i).
Qed.

End DetailFurther.

(** ** The wiki info *)

(** A person that is missing, or that redirects to another person, is
    reported as not found, with the message ["person <id>"], the id written
    as the number it is. *)
Theorem wiki_info_not_found (toStringBeyond : Z → string) (personID : Z) (w : World) :
  persons (db w) !! personID = None
  ∨ (∃ p, persons (db w) !! personID = Some p ∧ entity.redirect p ≠ 0) →
  getPersonWikiInfo toStringBeyond personID w
  = (Err (NotFoundError ("person " +:+ Number_toString toStringBeyond personID)),
     {| db := db w; log := log w ++ [DbSelect "person"]; saveFails := saveFails w |}).
Proof.
  intros Hp. unfold getPersonWikiInfo.
  rewrite bind_run, PersonRepo_findOneBy_redirect0. cbv beta iota.
  destruct Hp as [-> | (p & -> & Hr)]; cbn; [done|].
  by rewrite bool_decide_eq_false_2.
Qed.

Lemma wiki_info_run (toStringBeyond : Z → string) (personID : Z)
    (w : World) (p : entity.Person) :
  persons (db w) !! personID = Some p →
  entity.redirect p = 0 → entity.lock p = 0 →
  getPersonWikiInfo toStringBeyond personID w
  = (Ok {| wiki.id := personID;
           wiki.name := entity.name p;
           wiki.typeID := entity.type p;
           wiki.infobox := entity.infobox p;
           wiki.summary := entity.summary p |},
     {| db := db w; log := log w ++ [DbSelect "person"]; saveFails := saveFails w |}).
Proof.
  intros Hp Hr Hl. unfold getPersonWikiInfo.
  rewrite bind_run, PersonRepo_findOneBy_redirect0. cbv beta iota.
  rewrite Hp. cbn. rewrite bool_decide_eq_true_2 by done.
  unfold truthy. by rewrite Hl.
Qed.

(** For an unlocked person that is not a redirect the answer is the
    stored name, infobox, summary and type under the requested id, after
    one read. *)
Theorem wiki_info_returns_stored (toStringBeyond : Z → string) (personID : Z)
    (w : World) (p : entity.Person) :
  persons (db w) !! personID = Some p →
  entity.redirect p = 0 → entity.lock p = 0 →
  ∃ w',
    getPersonWikiInfo toStringBeyond personID w
    = (Ok {| wiki.id := personID;
             wiki.name := entity.name p;
             wiki.typeID := entity.type p;
             wiki.infobox := entity.infobox p;
             wiki.summary := entity.summary p |}, w')
    ∧ db w' = db w ∧ log w' = (log w ++ [DbSelect "person"])%list.
Proof.
  intros Hp Hr Hl. eexists. split; [by apply wiki_info_run|]. done.
Qed.

(** ** The person edit *)

Lemma applyEdit_empty (p : entity.Person) : applyEdit ∅ p = p.
Proof. unfold applyEdit. rewrite !lookup_empty. by destruct p. Qed.

Section EditFurther.

Variable toStringBeyond : Z → string.
Variable createRevision : RevisionInput → M unit.

(** Without the [mono_edit] permission the edit is refused before the
    person is read: nothing is queried and nothing changes. *)
Theorem patch_requires_permission (auth : Auth) (body : PatchBody) (personID : Z)
    (w : World) :
  mono_edit auth = false →
  patchPersonInfo toStringBeyond createRevision auth body personID w
  = (Err (NotAllowedError "edit person"), w).
Proof. intros Ha. unfold patchPersonInfo. by rewrite Ha. Qed.

(** On the path past the checks, [createRevision] runs once, after the
    save: on the world where the edited person is already stored, and for
    the target id, the type [personEdit], the editor, the commit message
    and the person's values after the edit.  Its answer is the edit's
    answer; when it throws, the save is undone. *)
Theorem patch_revision_snapshot (auth : Auth) (body : PatchBody) (personID : Z)
    (w : World) (p : entity.Person) :
  mono_edit auth = true →
  persons (db w) !! personID = Some p →
  entity.lock p = 0 → entity.redirect p = 0 →
  matchExpected (expectedRevision body)
    {[ "name" := entity.name p; "infobox" := entity.infobox p;
       "summary" := entity.summary p ]} = Ok () →
  saveFails w = false →
  let p' := applyEdit (person body) p in
  let saved :=
    {| db := {| chiiRevHistory := chiiRevHistory (db w);
                chiiRevTextRows := chiiRevTextRows (db w);
                persons := <[personID := p']> (persons (db w));
                users := users (db w);
                subjects := subjects (db w);
                characters := characters (db w) |};
       log := log w ++ [DbSelect "person"; DbWrite "person"];
       saveFails := false |} in
  let inp :=
    {| mid := personID; type := personEdit;
       rev := {| crt_name := entity.name p'; crt_infobox := entity.infobox p';
                 crt_summary := entity.summary p'; extra_img := entity.img p |};
       creator := userID auth; comment := commitMessage body |} in
  patchPersonInfo toStringBeyond createRevision auth body personID w
  = match createRevision inp saved with
    | (Ok u, w') => (Ok u, w')
    | (Err e, w') =>
        (Err e, {| db := db w; log := log w'; saveFails := saveFails w' |})
    end.
Proof.
  intros Ha Hp Hl Hr Hm Hs p' saved inp.
  unfold patchPersonInfo, transaction. rewrite Ha. cbn [negb].
  rewrite bind_run, PersonRepo_findOneBy_any, Hp. cbv beta iota.
  unfold truthy. rewrite Hl, Hr. cbn [Z.eqb negb orb].
  rewrite bind_run. unfold liftResult at 1. rewrite Hm. cbv beta iota.
  rewrite bind_run, PersonRepo_save_run. cbv zeta. cbn [db log saveFails].
  rewrite Hs. cbv beta iota. unfold saved, inp, p'. by rewrite <- app_assoc.
Qed.

Hypothesis contract : createRevisionContract createRevision.

(** An edit goes through only for a person that is neither locked nor a
    redirect. *)
Lemma patch_ok_unlocked (auth : Auth) (body : PatchBody) (personID : Z) (w w' : World)
    (u : unit) :
  patchPersonInfo toStringBeyond createRevision auth body personID w = (Ok u, w') →
  ∃ p, persons (db w) !! personID = Some p
       ∧ entity.lock p = 0 ∧ entity.redirect p = 0.
Proof.
  unfold patchPersonInfo. destruct (negb (mono_edit auth)); [done|].
  unfold transaction. rewrite bind_run, PersonRepo_findOneBy_any.
  destruct (persons (db w) !! personID) as [p|] eqn:Hp; [|done].
  destruct (truthy (entity.lock p) || truthy (entity.redirect p)) eqn:Hl; [done|].
  intros _. exists p. apply orb_false_iff in Hl as [Hl Hr].
  unfold truthy in Hl, Hr. split_and!; [done|lia|lia].
Qed.

(** An edit that submits no field leaves every person as stored, and is
    still recorded: the log grows by one [personEdit] revision. *)
Theorem patch_empty_input (auth : Auth) (body : PatchBody) (personID : Z) (w w' : World)
    (u : unit) :
  person body = ∅ →
  patchPersonInfo toStringBeyond createRevision auth body personID w = (Ok u, w') →
  persons (db w') = persons (db w)
  ∧ ∃ row, chiiRevHistory (db w') = (chiiRevHistory (db w) ++ [row])%list
           ∧ revMid row = personID ∧ revType row = personEdit.
Proof.
  intros Hempty Hrun.
  apply patch_ok_inv in Hrun as (p & row & Hp & Hpersons & Hrows & ? & ? & _); [|done].
  rewrite Hempty, applyEdit_empty, insert_id in Hpersons by done.
  split; [done|]. by exists row.
Qed.

(** A successful edit is what the next wiki-info read returns: the
    submitted fields, and the stored ones for the fields left out. *)
Theorem patch_then_read (auth : Auth) (body : PatchBody) (personID : Z) (w w' : World)
    (u : unit) (p : entity.Person) :
  patchPersonInfo toStringBeyond createRevision auth body personID w = (Ok u, w') →
  persons (db w) !! personID = Some p →
  (getPersonWikiInfo toStringBeyond personID w').1
  = Ok {| wiki.id := personID;
          wiki.name := default (entity.name p) (person body !! "name");
          wiki.typeID := entity.type p;
          wiki.infobox := default (entity.infobox p) (person body !! "infobox");
          wiki.summary := default (entity.summary p) (person body !! "summary") |}.
Proof.
  intros Hrun Hp.
  destruct (patch_ok_unlocked _ _ _ _ _ _ Hrun) as (p1 & Hp1 & Hl & Hr).
  apply patch_ok_inv in Hrun as (p2 & row & Hp2 & Hpersons & _); [|done].
  rewrite Hp in Hp1, Hp2. injection Hp1 as <-. injection Hp2 as <-.
  rewrite (wiki_info_run toStringBeyond personID w' (applyEdit (person body) p)); [done|..].
  - by rewrite Hpersons, lookup_insert_eq.
  - done.
  - done.
Qed.

(** The revision of a person edit never shows in a relation history:
    for revision types other than [personEdit], the count and every page
    of rows are the same after the edit as before. *)
Theorem patch_outside_relation_history (auth : Auth) (body : PatchBody) (personID : Z)
    (w w' : World) (u : unit) (q : Q) (revTypes : list RevType) (o l : Z) :
  patchPersonInfo toStringBeyond createRevision auth body personID w = (Ok u, w') →
  personEdit ∉ revTypes →
  countDistinct (db w') q revTypes = countDistinct (db w) q revTypes
  ∧ historyRows (db w') q revTypes o l = historyRows (db w) q revTypes o l.
Proof.
  intros Hrun Hty.
  apply patch_ok_inv in Hrun as (p & row & _ & _ & Hrows & _ & Hrow & _); [|done].
  assert (Hfilter : List.filter (matching q revTypes) (chiiRevHistory (db w'))
                    = List.filter (matching q revTypes) (chiiRevHistory (db w))).
  { rewrite Hrows, List.filter_app. cbn [List.filter].
    assert (matching q revTypes row = false) as ->; [|by rewrite app_nil_r].
    unfold matching. rewrite Hrow, (bool_decide_eq_false_2 _ Hty).
    apply andb_false_r. }
  unfold countDistinct, historyRows. by rewrite Hfilter.
Qed.

(** A body that passes the schema cannot blank a required field: when
    the stored name and infobox are not empty, they are not empty after the
    edit either. *)
Theorem patch_keeps_required_fields (auth : Auth) (body : PatchBody) (personID : Z)
    (w w' : World) (u : unit) (p : entity.Person) :
  patchPersonInfo_body body = true →
  patchPersonInfo toStringBeyond createRevision auth body personID w = (Ok u, w') →
  persons (db w) !! personID = Some p →
  entity.name p ≠ "" → entity.infobox p ≠ "" →
  ∃ p', persons (db w') !! personID = Some p'
        ∧ entity.name p' ≠ "" ∧ entity.infobox p' ≠ "".
Proof.
  intros Hschema Hrun Hp Hname Hinfobox.
  apply patch_ok_inv in Hrun as (p0 & row & Hp0 & Hpersons & _); [|done].
  rewrite Hp in Hp0. injection Hp0 as <-.
  exists (applyEdit (person body) p). rewrite Hpersons, lookup_insert_eq.
  split; [done|].
  unfold patchPersonInfo_body, Partial_PersonEdit in Hschema.
  repeat (apply andb_true_iff in Hschema as [Hschema ?]).
  unfold applyEdit. cbn.
  destruct (person body !! "name") as [n|]; destruct (person body !! "infobox") as [b|];
    cbn in *; repeat case_bool_decide; try done;
    split; try done; intros ->; cbn in *; lia.
Qed.

End EditFurther.

(** ** The further properties on the sample data *)

Lemma history_page_bound_witness :
  ∃ page w',
    serve (characterSubjectHistorySummary sample.ghostUser)
      {[ "characterID" := JNumber (inject_Z 7) ]}
      {| limit := Some 2; offset := None |} sample.world = (Ok page, w')
    ∧ Z.of_nat (length (res.data page)) ≤ 2
    ∧ (length (res.data page) ≤ 100)%nat.
Proof.
  eexists _, _. split; [by vm_compute|].
  eapply (history_page_bound sample.ghostUser
            "CharacterSubjectHistorySummary" "获取角色-条目关联历史编辑摘要"
            "characterID" [characterSubjectRelation]
            {[ "characterID" := JNumber (inject_Z 7) ]}
            {| limit := Some 2; offset := None |} sample.world).
  by vm_compute.
Defined.

Lemma history_rejects_invalid_page_witness :
  ∃ e,
    serve (characterSubjectHistorySummary sample.ghostUser)
      {[ "characterID" := JNumber (inject_Z 7) ]}
      {| limit := Some 101; offset := None |} sample.world = (Err e, sample.world)
    ∧ kindOf e = InvalidArgument.
Proof.
  apply (history_rejects_invalid_page sample.ghostUser
           "CharacterSubjectHistorySummary" "获取角色-条目关联历史编辑摘要"
           "characterID" [characterSubjectRelation]).
  left. exists 101. split; [reflexivity | lia].
Defined.

Lemma history_entries_sound_witness :
  ∃ page w',
    serve (characterSubjectHistorySummary sample.ghostUser)
      {[ "characterID" := JNumber (inject_Z 7) ]}
      {| limit := None; offset := None |} sample.world = (Ok page, w')
    ∧ ∀ e, e ∈ res.data page →
        ∃ x,
          x ∈ chiiRevHistory sample.database
          ∧ revMid x = 7 ∧ revType x ∈ [characterSubjectRelation]
          ∧ res.id e = revId x
          ∧ res.createdAt e = createdAt x
          ∧ res.commitMessage e = revEditSummary x.
Proof.
  eexists _, _. split; [by vm_compute|]. intros e.
  eapply (history_entries_sound sample.ghostUser
            "CharacterSubjectHistorySummary" "获取角色-条目关联历史编辑摘要"
            "characterID" [characterSubjectRelation]
            {[ "characterID" := JNumber (inject_Z 7) ]}
            {| limit := None; offset := None |} sample.world _ _ e (inject_Z 7) 7).
  - by vm_compute.
  - reflexivity.
  - reflexivity.
Defined.

Lemma history_known_user_witness :
  ∃ page w',
    serve (characterSubjectHistorySummary sample.ghostUser)
      {[ "characterID" := JNumber (inject_Z 7) ]}
      {| limit := None; offset := None |} sample.world = (Ok page, w')
    ∧ username <$> (res.creator <$> res.data page)
      = ["bob"; "alice"; "ghost 99"; "bob"; "alice"]
    ∧ ∀ i e, res.data page !! i = Some e →
        ∃ x,
          x ∈ chiiRevHistory sample.database ∧ res.id e = revId x
          ∧ ∀ u, users sample.database !! revCreator x = Some u →
                 username (res.creator e) = username u.
Proof.
  eexists _, _. split; [by vm_compute|]. split; [by vm_compute|]. intros i e.
  eapply (history_known_user sample.ghostUser
            "CharacterSubjectHistorySummary" "获取角色-条目关联历史编辑摘要"
            "characterID" [characterSubjectRelation]
            {[ "characterID" := JNumber (inject_Z 7) ]}
            {| limit := None; offset := None |} sample.world _ _ i e).
  by vm_compute.
Defined.

(** Two rows share the id 5: both are listed, in non-increasing order. *)
Lemma history_non_increasing_witness :
  ∃ page w',
    serve (characterSubjectHistorySummary sample.ghostUser)
      {[ "characterID" := JNumber (inject_Z 7) ]}
      {| limit := None; offset := None |} sample2.duplicates = (Ok page, w')
    ∧ res.id <$> res.data page = [5; 5]
    ∧ ∀ (i j : nat) a b, (i < j)%nat →
        res.data page !! i = Some a → res.data page !! j = Some b →
        res.id b ≤ res.id a.
Proof.
  eexists _, _. split; [by vm_compute|]. split; [by vm_compute|]. intros i j a b.
  eapply (history_non_increasing sample.ghostUser
            "CharacterSubjectHistorySummary" "获取角色-条目关联历史编辑摘要"
            "characterID" [characterSubjectRelation]
            {[ "characterID" := JNumber (inject_Z 7) ]}
            {| limit := None; offset := None |} sample2.duplicates _ _ i j a b).
  by vm_compute.
Defined.

(** On that table the total counts the one distinct id while the page
    lists both rows: the primary key is what makes the two agree. *)
Example history_duplicate_ids :
  ∃ page w',
    serve (characterSubjectHistorySummary sample.ghostUser)
      {[ "characterID" := JNumber (inject_Z 7) ]}
      {| limit := None; offset := None |} sample2.duplicates = (Ok page, w')
    ∧ res.total page = 1
    ∧ res.id <$> res.data page = [5; 5].
Proof. eexists _, _. by vm_compute. Qed.

(** Entries 16, 15 and then 13, 11 are together the four after the
    newest. *)
Lemma history_pages_tile_witness :
  let params : gmap string jsval := {[ "characterID" := JNumber (inject_Z 7) ]} in
  let route := characterSubjectHistorySummary sample.ghostUser in
  ∃ p1 p2 p12,
    (serve route params {| limit := Some 2; offset := Some 1 |} sample.world).1 = Ok p1
    ∧ (serve route params {| limit := Some 2; offset := Some (1 + 2) |} sample.world).1
      = Ok p2
    ∧ (serve route params {| limit := Some (2 + 2); offset := Some 1 |} sample.world).1
      = Ok p12
    ∧ (res.data p1 ++ res.data p2)%list = res.data p12
    ∧ res.total p1 = res.total p12 ∧ res.total p2 = res.total p12.
Proof.
  intros params route.
  apply (history_pages_tile sample.ghostUser
           "CharacterSubjectHistorySummary" "获取角色-条目关联历史编辑摘要"
           "characterID" [characterSubjectRelation] params sample.world
           (inject_Z 7) 7 2 2 1).
  - exact sample_primary_key.
  - reflexivity.
  - reflexivity.
  - lia.
  - lia.
  - lia.
  - lia.
  - lia.
Defined.

(** Character 9 has no revision at all. *)
Lemma history_unknown_target_witness :
  (serve (characterSubjectHistorySummary sample.ghostUser)
     {[ "characterID" := JNumber (inject_Z 9) ]}
     {| limit := None; offset := None |} sample.world).1
  = Ok {| res.total := 0; res.data := [] |}.
Proof.
  apply (history_unknown_target sample.ghostUser
           "CharacterSubjectHistorySummary" "获取角色-条目关联历史编辑摘要"
           "characterID" [characterSubjectRelation]
           {[ "characterID" := JNumber (inject_Z 9) ]}
           {| limit := None; offset := None |} sample.world (inject_Z 9) 9).
  - reflexivity.
  - reflexivity.
  - lia.
  - reflexivity.
  - apply (proj1 (Forall_forall
             (λ x, revMid x = 9 → revType x ∉ [characterSubjectRelation]) _)).
    apply (bool_decide_unpack _). by vm_compute.
Defined.

(** Revision 13 exists, its blob 13 does not. *)
Lemma revision_detail_blob_missing_witness :
  let e := NotFoundError "RevText 13" in
  let w' := {| db := sample.database;
               log := [DbSelect "chiiRevHistory"; DbSelect "chiiRevText"];
               saveFails := false |} in
  getCharacterSubjectRevision sample.toStringBeyond sample.deserialize 13 sample.world
      = (Err e, w')
  ∧ getCharacterPersonRevision sample.toStringBeyond sample.deserialize 13 sample.world
      = (Err e, w')
  ∧ getPersonSubjectRevision sample.toStringBeyond sample.deserialize 13 sample.world
      = (Err e, w')
  ∧ getPersonCharacterRevision sample.toStringBeyond sample.deserialize 13 sample.world
      = (Err e, w').
Proof.
  apply (revision_detail_blob_missing sample.toStringBeyond sample.deserialize 13
      sample.world
           (sample.mkRev 13 characterSubjectRelation 7 2) []).
  - by vm_compute.
  - by vm_compute.
Defined.

(** Revision 21 points at blob 11, which has no entry for 21. *)
Lemma revision_detail_entry_missing_witness :
  let e := TypeError "Cannot convert undefined or null to object" in
  let w' := {| db := sample2.database;
               log := [DbSelect "chiiRevHistory"; DbSelect "chiiRevText";
                       Call "RevText.deserialize"];
               saveFails := false |} in
  getCharacterSubjectRevision sample.toStringBeyond sample.deserialize 21 sample2.world
      = (Err e, w')
  ∧ getCharacterPersonRevision sample.toStringBeyond sample.deserialize 21 sample2.world
      = (Err e, w')
  ∧ getPersonSubjectRevision sample.toStringBeyond sample.deserialize 21 sample2.world
      = (Err e, w')
  ∧ getPersonCharacterRevision sample.toStringBeyond sample.deserialize 21 sample2.world
      = (Err e, w').
Proof.
  apply (revision_detail_entry_missing sample.toStringBeyond sample.deserialize 21 sample2.world
           {| revId := 21; revType := characterSubjectRelation; revMid := 7;
              revTextId := 11; createdAt := 1700000021; revCreator := 1;
              revEditSummary := "edit 21" |} []
           {| chiiRevText.revTextId := 11; chiiRevText.revText := "blob 11" |} []
           {[ 11 := [ ("0", sample.mkItem 100 3); ("1", sample.mkItem 200 4) ] ]}).
  - by vm_compute.
  - by vm_compute.
  - by vm_compute.
  - by vm_compute.
Defined.

(** Subject 100 of revision 11 has a name. *)
Lemma revision_detail_known_names_witness :
  ∃ out w',
    getCharacterSubjectRevision sample.toStringBeyond sample.deserialize 11 sample.world
        = (Ok out, w')
    ∧ ∀ (i : nat) (x : RevItem),
        [sample.mkItem 100 3; sample.mkItem 200 4] !! i = Some x →
        ∃ o, out !! i = Some o
             ∧ ∀ s, subjects sample.database !! subject_id x = Some s →
                    CharacterSubjectRelationWiki.subjectName o = name s.
Proof.
  apply (revision_detail_known_names sample.toStringBeyond sample.deserialize 11
      sample.world
           (sample.mkRev 11 characterSubjectRelation 7 1) []
           {| chiiRevText.revTextId := 11; chiiRevText.revText := "blob 11" |} []
           {[ 11 := [ ("0", sample.mkItem 100 3); ("1", sample.mkItem 200 4) ] ]}
           [ ("0", sample.mkItem 100 3); ("1", sample.mkItem 200 4) ]).
  - by vm_compute.
  - by vm_compute.
  - by vm_compute.
  - by vm_compute.
Defined.

(** Person 3 redirects to another person. *)
Lemma wiki_info_not_found_witness :
  getPersonWikiInfo sample.toStringBeyond 3 sample2.world
  = (Err (NotFoundError "person 3"),
     {| db := sample2.database; log := [DbSelect "person"]; saveFails := false |}).
Proof.
  apply (wiki_info_not_found sample.toStringBeyond 3 sample2.world).
  right. eexists. split; [by vm_compute|]. cbn. lia.
Defined.

Lemma wiki_info_returns_stored_witness :
  ∃ w',
    getPersonWikiInfo sample.toStringBeyond 1 sample.world
    = (Ok {| wiki.id := 1; wiki.name := "A"; wiki.typeID := 1;
             wiki.infobox := "{{Infobox}}"; wiki.summary := "" |}, w')
    ∧ db w' = sample.database ∧ log w' = [DbSelect "person"].
Proof.
  apply (wiki_info_returns_stored sample.toStringBeyond 1
      sample.world (sample.mkPerson "A" 0)).
  - by vm_compute.
  - reflexivity.
  - reflexivity.
Defined.

Lemma patch_requires_permission_witness :
  patchPersonInfo sample.toStringBeyond sample.createRevision {| userID := 5; mono_edit := false |}
    sample.body 1 sample.world
  = (Err (NotAllowedError "edit person"), sample.world).
Proof.
  apply (patch_requires_permission sample.toStringBeyond sample.createRevision). reflexivity.
Defined.

Lemma patch_not_found_witness :
  patchPersonInfo sample.toStringBeyond sample.createRevision sample.auth sample.body 99
      sample.world
  = (Err (NotFoundError "person 99"),
     {| db := sample.database; log := [DbSelect "person"]; saveFails := false |}).
Proof.
  apply (patch_not_found sample.toStringBeyond sample.createRevision sample.auth sample.body 99
      sample.world).
  - reflexivity.
  - by vm_compute.
Defined.

(** Person 3 of the second sample is a redirect. *)
Lemma patch_locked_witness :
  patchPersonInfo sample.toStringBeyond sample.createRevision sample.auth sample.body 3 sample2.world
  = (Err LockedError,
     {| db := sample2.database; log := [DbSelect "person"]; saveFails := false |}).
Proof.
  eapply (patch_locked sample.toStringBeyond sample.createRevision sample.auth sample.body 3 sample2.world).
  - reflexivity.
  - by vm_compute.
  - reflexivity.
Defined.

Lemma patch_conflict_witness :
  let body := {| commitMessage := "rename";
                 expectedRevision := {[ "name" := "Z" ]};
                 person := {[ "name" := "B" ]} |} in
  patchPersonInfo sample.toStringBeyond sample.createRevision sample.auth body 1
      sample.world
  = (Err (WikiChangedError (readableDiff "name" "Z" "A")),
     {| db := sample.database; log := [DbSelect "person"]; saveFails := false |}).
Proof.
  intros body.
  apply (patch_conflict sample.toStringBeyond sample.createRevision sample.auth body 1
      sample.world
           (sample.mkPerson "A" 0)).
  - reflexivity.
  - by vm_compute.
  - reflexivity.
  - by vm_compute.
Defined.

Lemma patch_revision_snapshot_witness :
  let p' := sample.mkPerson "B" 0 in
  let saved :=
    {| db := {| chiiRevHistory := chiiRevHistory sample.database;
                chiiRevTextRows := chiiRevTextRows sample.database;
                persons := <[1 := p']> (persons sample.database);
                users := users sample.database;
                subjects := subjects sample.database;
                characters := characters sample.database |};
       log := [DbSelect "person"; DbWrite "person"];
       saveFails := false |} in
  let inp :=
    {| mid := 1; type := personEdit;
       rev := {| crt_name := "B"; crt_infobox := "{{Infobox}}";
                 crt_summary := ""; extra_img := "" |};
       creator := 1; comment := "rename" |} in
  patchPersonInfo sample.toStringBeyond sample.brokenCreateRevision sample.auth sample.body 1
      sample.world
  = match sample.brokenCreateRevision inp saved with
    | (Ok u, w') => (Ok u, w')
    | (Err e, w') =>
        (Err e, {| db := sample.database; log := log w'; saveFails := saveFails w' |})
    end.
Proof.
  apply (patch_revision_snapshot sample.toStringBeyond sample.brokenCreateRevision sample.auth sample.body 1
           sample.world (sample.mkPerson "A" 0)).
  - reflexivity.
  - by vm_compute.
  - reflexivity.
  - reflexivity.
  - by vm_compute.
  - reflexivity.
Defined.

Lemma patch_empty_input_witness :
  let w' := (patchPersonInfo sample.toStringBeyond sample.createRevision sample.auth sample2.emptyBody 1
               sample.world).2 in
  persons (db w') = persons sample.database
  ∧ ∃ row, chiiRevHistory (db w') = (chiiRevHistory sample.database ++ [row])%list
           ∧ revMid row = 1 ∧ revType row = personEdit.
Proof.
  intros w'.
  apply (patch_empty_input sample.toStringBeyond sample.createRevision sample_createRevision_contract
           sample.auth sample2.emptyBody 1 sample.world w' ()).
  - reflexivity.
  - by vm_compute.
Defined.

Lemma patch_then_read_witness :
  let w' := (patchPersonInfo sample.toStringBeyond sample.createRevision sample.auth sample.body 1
               sample.world).2 in
  (getPersonWikiInfo sample.toStringBeyond 1 w').1
  = Ok {| wiki.id := 1; wiki.name := "B"; wiki.typeID := 1;
          wiki.infobox := "{{Infobox}}"; wiki.summary := "" |}.
Proof.
  intros w'.
  apply (patch_then_read sample.toStringBeyond sample.createRevision sample_createRevision_contract
           sample.auth sample.body 1 sample.world w' () (sample.mkPerson "A" 0)).
  - by vm_compute.
  - by vm_compute.
Defined.

Lemma patch_outside_relation_history_witness :
  let w' := (patchPersonInfo sample.toStringBeyond sample.createRevision sample.auth sample.body 1
               sample.world).2 in
  countDistinct (db w') (inject_Z 1) [personSubjectRelation]
  = countDistinct sample.database (inject_Z 1) [personSubjectRelation]
  ∧ historyRows (db w') (inject_Z 1) [personSubjectRelation] 0 20
    = historyRows sample.database (inject_Z 1) [personSubjectRelation] 0 20.
Proof.
  intros w'.
  apply (patch_outside_relation_history sample.toStringBeyond sample.createRevision
           sample_createRevision_contract sample.auth sample.body 1 sample.world w' ()).
  - by vm_compute.
  - apply (bool_decide_unpack _). by vm_compute.
Defined.

Lemma patch_keeps_required_fields_witness :
  let w' := (patchPersonInfo sample.toStringBeyond sample.createRevision sample.auth sample.body 1
               sample.world).2 in
  ∃ p', persons (db w') !! 1 = Some p'
        ∧ entity.name p' ≠ "" ∧ entity.infobox p' ≠ "".
Proof.
  intros w'.
  apply (patch_keeps_required_fields sample.toStringBeyond sample.createRevision
           sample_createRevision_contract sample.auth sample.body 1 sample.world w' ()
           (sample.mkPerson "A" 0)).
  - by vm_compute.
  - by vm_compute.
  - by vm_compute.
  - discriminate.
  - discriminate.
Defined.

(** A body that would blank the name does not pass the schema. *)
Example patch_body_blank_name :
  patchPersonInfo_body
    {| commitMessage := "blank"; expectedRevision := ∅; person := {[ "name" := "" ]} |}
  = false
  ∧ patchPersonInfo_body
      {| commitMessage := "x"; expectedRevision := ∅; person := {[ "id" := "9" ]} |}
    = false
  ∧ patchPersonInfo_body
      {| commitMessage := "clear"; expectedRevision := ∅; person := {[ "summary" := "" ]} |}
    = true.
Proof. by vm_compute. Qed.
